(** * mattermost-emoji-uploader: a shallow embedding of [main.go]

    The program reads a name -> URL manifest, sanitises every name,
    downloads the image and posts it to the emoji endpoint of a Mattermost
    server.  Go strings are byte sequences, so they are modelled by
    [string] (a list of 8-bit [ascii]); integers are [Z]; the outside world
    (file system, HTTP peers, decoders) is a record of oracles and every
    call on it is logged in an event history. *)

From Stdlib Require Import ZArith List Bool Lia.
From Stdlib Require Import Ascii String DecimalString.
Import ListNotations.

Open Scope string_scope.
Open Scope Z_scope.

(* ================================================================== *)
(** * Go strings and bytes                                             *)
(* ================================================================== *)

Module GoString.

Definition rune := Z.

(** [s[i]] as an integer 0..255. *)
Definition byte_val (c : ascii) : Z := Z.of_N (N_of_ascii c).

(** [byte(r)] / [string(rune)] for [r] below 0x100. *)
Definition byte_of (z : Z) : ascii := ascii_of_N (Z.to_N z).

Definition str1 (c : ascii) : string := String c EmptyString.

(** [len(s)] *)
Definition len (s : string) : Z := Z.of_nat (String.length s).

(** [s[:n]] for [0 <= n <= len(s)] *)
Fixpoint take (n : nat) (s : string) : string :=
  match n, s with
  | O, _ => EmptyString
  | S _, EmptyString => EmptyString
  | S n', String c s' => String c (take n' s')
  end.

(** [s[n:]] *)
Fixpoint drop (n : nat) (s : string) : string :=
  match n, s with
  | O, _ => s
  | S _, EmptyString => EmptyString
  | S n', String _ s' => drop n' s'
  end.

(** [strings.HasPrefix(s, prefix)] *)
Fixpoint HasPrefix (s prefix : string) : bool :=
  match prefix, s with
  | EmptyString, _ => true
  | String _ _, EmptyString => false
  | String p prefix', String c s' => Ascii.eqb c p && HasPrefix s' prefix'
  end.

(** [strings.Contains(s, substr)] *)
Fixpoint Contains (s substr : string) : bool :=
  HasPrefix s substr ||
  match s with
  | EmptyString => false
  | String _ s' => Contains s' substr
  end.

(** [strings.Join] with the empty separator *)
Definition Join (elems : list string) : string :=
  fold_right String.append EmptyString elems.

(** The verb [%d] of package [fmt]. *)
Definition fmt_d (n : Z) : string := NilZero.string_of_int (Z.to_int n).

End GoString.
Import GoString.

(* ================================================================== *)
(** * Package unicode/utf8                                             *)
(* ================================================================== *)

Module utf8.

Definition RuneError : rune := 0xFFFD.
Definition RuneSelf : Z := 0x80.
Definition MaxRune : rune := 0x10FFFF.

Definition locb : Z := 0x80.
Definition hicb : Z := 0xBF.
Definition maskx : Z := 0x3F.
Definition mask2 : Z := 0x1F.
Definition mask3 : Z := 0x0F.
Definition mask4 : Z := 0x07.

(** One entry of the table [first]: the information Go keeps about a
    leading byte. *)
Inductive lead :=
| as_ascii                      (* 0x00-0x7F *)
| xx                            (* invalid leading byte *)
| sized (sz : nat) (lo hi : Z). (* length and accept range of byte 2 *)

Definition first (s0 : Z) : lead :=
  if s0 <? 0x80 then as_ascii
  else if s0 <? 0xC2 then xx
  else if s0 <? 0xE0 then sized 2 locb hicb
  else if s0 =? 0xE0 then sized 3 0xA0 hicb
  else if s0 <? 0xED then sized 3 locb hicb
  else if s0 =? 0xED then sized 3 locb 0x9F
  else if s0 <? 0xF0 then sized 3 locb hicb
  else if s0 =? 0xF0 then sized 4 0x90 hicb
  else if s0 <? 0xF4 then sized 4 locb hicb
  else if s0 =? 0xF4 then sized 4 locb 0x8F
  else xx.

Definition in_range (lo hi b : Z) : bool := (lo <=? b) && (b <=? hi).

(** [utf8.DecodeRuneInString]: the rune at the head of [s] and its width
    in bytes; an invalid or truncated encoding yields [(RuneError, 1)],
    the empty string [(RuneError, 0)]. *)
Definition DecodeRuneInString (s : string) : rune * nat :=
  match s with
  | EmptyString => (RuneError, 0%nat)
  | String c0 t0 =>
    let s0 := byte_val c0 in
    match first s0 with
    | as_ascii => (s0, 1%nat)
    | xx => (RuneError, 1%nat)
    | sized sz lo hi =>
      match t0 with
      | EmptyString => (RuneError, 1%nat)
      | String c1 t1 =>
        let s1 := byte_val c1 in
        if negb (in_range lo hi s1) then (RuneError, 1%nat)
        else if (sz <=? 2)%nat then
          (Z.lor (Z.shiftl (Z.land s0 mask2) 6) (Z.land s1 maskx), 2%nat)
        else
          match t1 with
          | EmptyString => (RuneError, 1%nat)
          | String c2 t2 =>
            let s2 := byte_val c2 in
            if negb (in_range locb hicb s2) then (RuneError, 1%nat)
            else if (sz <=? 3)%nat then
              (Z.lor (Z.lor (Z.shiftl (Z.land s0 mask3) 12)
                            (Z.shiftl (Z.land s1 maskx) 6))
                     (Z.land s2 maskx), 3%nat)
            else
              match t2 with
              | EmptyString => (RuneError, 1%nat)
              | String c3 _ =>
                let s3 := byte_val c3 in
                if negb (in_range locb hicb s3) then (RuneError, 1%nat)
                else
                  (Z.lor (Z.lor (Z.lor (Z.shiftl (Z.land s0 mask4) 18)
                                       (Z.shiftl (Z.land s1 maskx) 12))
                                (Z.shiftl (Z.land s2 maskx) 6))
                         (Z.land s3 maskx), 4%nat)
              end
          end
      end
    end
  end.

(** [utf8.AppendRune] / [Builder.WriteRune]: surrogates and values
    outside the Unicode range are written as U+FFFD. *)
Definition EncodeRune (r : rune) : string :=
  let cont (x : Z) := byte_of (Z.lor 0x80 (Z.land x maskx)) in
  let enc3 (x : Z) :=
    String (byte_of (Z.lor 0xE0 (Z.shiftr x 12)))
      (String (cont (Z.shiftr x 6)) (String (cont x) EmptyString)) in
  if (0 <=? r) && (r <? 0x80) then str1 (byte_of r)
  else if (0 <=? r) && (r <? 0x800) then
    String (byte_of (Z.lor 0xC0 (Z.shiftr r 6))) (String (cont r) EmptyString)
  else if (r <? 0) || (MaxRune <? r) || ((0xD800 <=? r) && (r <=? 0xDFFF))
  then enc3 RuneError
  else if r <? 0x10000 then enc3 r
  else
    String (byte_of (Z.lor 0xF0 (Z.shiftr r 18)))
      (String (cont (Z.shiftr r 12))
         (String (cont (Z.shiftr r 6)) (String (cont r) EmptyString))).

(** The sequence a [for _, r := range s] loop visits: every rune of [s]
    with the bytes it was decoded from.  [fuel] bounds the number of
    iterations; [len(s)] is always enough because every step consumes
    at least one byte. *)
Fixpoint range_fuel (fuel : nat) (s : string) : list (rune * string) :=
  match fuel with
  | O => []
  | S fuel' =>
    match s with
    | EmptyString => []
    | String _ _ =>
      let '(r, w) := DecodeRuneInString s in
      (r, take w s) :: range_fuel fuel' (drop w s)
    end
  end.

Definition range (s : string) : list (rune * string) :=
  range_fuel (String.length s) s.

End utf8.

(* ================================================================== *)
(** * Library data the program links against                           *)
(* ================================================================== *)

(** Two tables live outside the repository and are taken as parameters:
    the transliteration table of [github.com/mozillazg/go-unidecode]
    ([table.Tables], a map from the high bits of a code point to a slice
    of replacement strings) and the lower-case mapping that package
    [unicode] derives from its case tables for runes above ASCII. *)
Record Libs := {
  table_Tables : Z -> option (list string);
  unicode_To_LowerCase : rune -> rune
}.

(* ================================================================== *)
(** * Packages unicode, strings, unidecode and regexp                  *)
(* ================================================================== *)

Module unicode.

Definition MaxASCII : rune := 0x7F.

(** [unicode.ToLower] *)
Definition ToLower (lib : Libs) (r : rune) : rune :=
  if r <=? MaxASCII then
    if (65 <=? r) && (r <=? 90) then r + (97 - 65) else r
  else unicode_To_LowerCase lib r.

End unicode.

Module strings.

(** [strings.Map]: every rune of [s] is replaced by the encoding of its
    image; a negative image drops the rune.  A byte that is not valid
    UTF-8 is visited as U+FFFD. *)
Definition Map (mapping : rune -> rune) (s : string) : string :=
  Join (map (fun rb : rune * string =>
               let r := mapping (fst rb) in
               if 0 <=? r then utf8.EncodeRune r else EmptyString)
            (utf8.range s)).

Definition isASCII (s : string) : bool :=
  forallb (fun c => byte_val c <? utf8.RuneSelf) (list_ascii_of_string s).

(** The ASCII-only branch of [strings.ToLower]: bytes ['A'..'Z'] are
    shifted, the others are copied. *)
Fixpoint lower_ascii (s : string) : string :=
  match s with
  | EmptyString => EmptyString
  | String c s' =>
    let b := byte_val c in
    String (if (65 <=? b) && (b <=? 90) then byte_of (b + (97 - 65)) else c)
           (lower_ascii s')
  end.

(** [strings.ToLower] *)
Definition ToLower (lib : Libs) (s : string) : string :=
  if isASCII s then lower_ascii s
  else Map (unicode.ToLower lib) s.

(** The loop of [strings.Replace] for a non-empty [old]: the leftmost
    occurrence is replaced and the search resumes behind it. *)
Fixpoint replace_fuel (fuel : nat) (s old new : string) : string :=
  match fuel with
  | O => s
  | S fuel' =>
    match s with
    | EmptyString => EmptyString
    | String c s' =>
      if HasPrefix s old
      then new ++ replace_fuel fuel' (drop (String.length old) s) old new
      else String c (replace_fuel fuel' s' old new)
    end
  end.

(** [strings.ReplaceAll]; with an empty [old] Go inserts [new] in front
    of every rune and at the end. *)
Definition ReplaceAll (s old new : string) : string :=
  if String.eqb old new then s
  else match old with
       | EmptyString =>
         new ++ Join (map (fun rb : rune * string => snd rb ++ new)
                          (utf8.range s))
       | String _ _ => replace_fuel (String.length s) s old new
       end.

End strings.

Module unidecode.

(** The package is a dependency, not part of the repository; the model
    follows its loop: ASCII is copied, code points above 0xeffff are
    dropped, any other one is looked up in the table by its high bits and
    its low byte.  [transliterate] is what one iteration appends to the
    result for the rune [r]. *)
Definition transliterate (lib : Libs) (r : rune) : list string :=
  if r <? unicode.MaxASCII then [str1 (byte_of r)]
  else if 0xeffff <? r then []
  else
    let section := Z.shiftr r 8 in
    let position := r mod 256 in
    match table_Tables lib section with
    | Some tb =>
      match nth_error tb (Z.to_nat position) with
      | Some t => [t]
      | None => []
      end
    | None => []
    end.

(** [unidecode.Unidecode] *)
Definition Unidecode (lib : Libs) (s : string) : string :=
  Join (flat_map (fun rb : rune * string => transliterate lib (fst rb))
                 (utf8.range s)).

End unidecode.

Module regexp.

(** The character class of [[^a-z0-9\-_]]: a rune matches when it is
    none of the listed ones.  Bytes that are not UTF-8 are matched as
    U+FFFD. *)
Definition allowed (r : rune) : bool :=
  ((97 <=? r) && (r <=? 122)) || ((48 <=? r) && (r <=? 57))
  || (r =? 45) || (r =? 95).

Definition forbidden (r : rune) : bool := negb (allowed r).

(** [ReplaceAllString] for the expression [[^a-z0-9\-_]+]: every maximal
    run of matching runes is one match and is replaced by [repl]; the
    bytes between matches are copied.  [inmatch] tells that the previous
    rune belonged to the current match. *)
Fixpoint replace_runs (repl : string) (inmatch : bool)
         (rs : list (rune * string)) : string :=
  match rs with
  | [] => EmptyString
  | (r, bs) :: rs' =>
    if forbidden r
    then (if inmatch then EmptyString else repl) ++ replace_runs repl true rs'
    else bs ++ replace_runs repl false rs'
  end.

Definition ReplaceAllString (src repl : string) : string :=
  replace_runs repl false (utf8.range src).

End regexp.

(* ================================================================== *)
(** * main.go: name sanitisation                                       *)
(* ================================================================== *)

(** [sanitizeEmojiName] converts names to the Mattermost format. *)
Definition sanitizeEmojiName (lib : Libs) (name : string) : string :=
  (* Transliterate non-latin characters *)
  let name := unidecode.Unidecode lib name in
  (* Convert to lowercase *)
  let name := strings.ToLower lib name in
  (* Replace spaces with dashes *)
  let name := strings.ReplaceAll name " " "-" in
  (* Remove all forbidden characters *)
  let name := regexp.ReplaceAllString name EmptyString in
  (* Truncate to the Mattermost limit *)
  if 64 <? len name then take 64 name else name.

(* ================================================================== *)
(** * Package fmt                                                      *)
(* ================================================================== *)

Module fmt.

Inductive arg :=
| AStr (s : string)   (* a string, or an error printed by its text *)
| AInt (n : Z).

Definition show (a : arg) : string :=
  match a with
  | AStr s => s
  | AInt n => fmt_d n
  end.

(** [fmt.Sprintf] for the verbs the program uses ([%s], [%d], [%v]) and
    [%%]; any other byte after a [%] is copied with it. *)
Fixpoint Sprintf (format : string) (args : list arg) : string :=
  match format with
  | EmptyString => EmptyString
  | String c rest =>
    if Ascii.eqb c "%" then
      match rest with
      | EmptyString => "%!(NOVERB)"
      | String v rest' =>
        if Ascii.eqb v "s" || Ascii.eqb v "d" || Ascii.eqb v "v" then
          match args with
          | a :: args' => show a ++ Sprintf rest' args'
          | [] => "%!" ++ str1 v ++ "(MISSING)" ++ Sprintf rest' []
          end
        else if Ascii.eqb v "%" then String "%" (Sprintf rest' args)
        else String c (String v (Sprintf rest' args))
      end
    else String c (Sprintf rest args)
  end.

End fmt.

(** The line feed and the double quote, which have no literal form. *)
Definition nl : string := str1 "010"%char.
Definition dq : string := str1 "034"%char.

(* ================================================================== *)
(** * The outside world                                                *)
(* ================================================================== *)

(** A Go [(value, error)] pair; an error is kept by its text
    ([err.Error()]). *)
Inductive result (A : Type) :=
| Ok (a : A)
| Err (e : string).
Arguments Ok {A} a.
Arguments Err {A} e.

(** What [io.ReadAll(resp.Body)] returns: the bytes read and the error
    that stopped the reading, if any. *)
Record Body := {
  body_data : string;
  body_err : option string
}.

Record Response := {
  StatusCode : Z;
  Header_ContentType : string;     (* resp.Header.Get("Content-Type") *)
  resp_Body : Body
}.

(** One part of a [multipart/form-data] body.  The boundary, which the
    writer draws at random, is not represented. *)
Record Part := {
  part_name : string;
  part_filename : option string;
  part_data : string
}.

Record Request := {
  req_Method : string;
  req_URL : string;
  req_Authorization : string;
  req_multipart : bool;            (* Content-Type: multipart/form-data *)
  req_parts : list Part
}.

(** Everything the run does to its environment, in the order it does it. *)
Inductive Event :=
| EvStdout (s : string)            (* fmt.Printf, fmt.Println *)
| EvStderr (s : string)            (* fmt.Fprintf(os.Stderr, ...) *)
| EvUsage                          (* flag.Usage() *)
| EvExit (code : Z)                (* os.Exit *)
| EvReadFile (path : string)       (* os.ReadFile *)
| EvGet (url : string)             (* client.Get *)
| EvDo (req : Request)             (* client.Do *)
| EvSleep (ms : Z).                (* time.Sleep, in milliseconds *)

(** The manifest after decoding.  [EmojiMap] is a Go map; the list gives
    its entries in the order in which the [range] loop of [main] visits
    them, an order Go leaves unspecified. *)
Definition EmojiMap := list (string * string).

(** The environment of one run.  The answers of the network may depend on
    everything that happened before (the history, latest event first). *)
Record World := {
  os_ReadFile : string -> result string;
  json_Unmarshal : string -> result EmojiMap;
  http_NewRequest : string -> string -> option string;
  client_Get : list Event -> string -> result Response;
  client_Do : list Event -> Request -> result Response;
  json_Decode_UserInfo : Body -> result string
}.

(** Computations that extend the history. *)
Definition M (A : Type) : Type := list Event -> A * list Event.

Definition ret {A} (a : A) : M A := fun h => (a, h).

Definition bind {A B} (m : M A) (k : A -> M B) : M B :=
  fun h => let '(a, h') := m h in k a h'.

Notation "x <- m ;; k" := (bind m (fun x => k))
  (at level 61, m at next level, right associativity).
Notation "m ;; k" := (bind m (fun _ => k))
  (at level 61, right associativity).

Definition emit (e : Event) : M unit := fun h => (tt, e :: h).

Definition Printf (format : string) (args : list fmt.arg) : M unit :=
  emit (EvStdout (fmt.Sprintf format args)).

Definition Println (s : string) : M unit := emit (EvStdout (s ++ nl)).

Definition Fprintf_Stderr (format : string) (args : list fmt.arg) : M unit :=
  emit (EvStderr (fmt.Sprintf format args)).

Definition Sleep (ms : Z) : M unit := emit (EvSleep ms).

Definition Get (w : World) (url : string) : M (result Response) :=
  fun h => (client_Get w h url, EvGet url :: h).

Definition Do (w : World) (req : Request) : M (result Response) :=
  fun h => (client_Do w h req, EvDo req :: h).

Definition ReadFile (w : World) (path : string) : M (result string) :=
  fun h => (os_ReadFile w path, EvReadFile path :: h).

(** The events of a run in chronological order. *)
Definition trace {A} (m : M A) : list Event := rev (snd (m [])).

Definition StatusOK : Z := 200.
Definition StatusCreated : Z := 201.

(* ================================================================== *)
(** * main.go: network helpers                                         *)
(* ================================================================== *)

(** [downloadImage] fetches the image from Slack or an external URL. *)
Definition downloadImage (w : World) (url : string)
  : M (result (string * string)) :=
  resp <- Get w url ;;
  match resp with
  | Err err => ret (Err err)
  | Ok resp =>
    if negb (StatusCode resp =? StatusOK) then
      ret (Err (fmt.Sprintf "HTTP %d" [fmt.AInt (StatusCode resp)]))
    else
      match body_err (resp_Body resp) with
      | Some err => ret (Err err)
      | None =>
        let data := body_data (resp_Body resp) in
        let contentType := Header_ContentType resp in
        ret (Ok (data, contentType))
      end
  end.

(** [getUserID] retrieves the user ID from the token. *)
Definition getUserID (w : World) (serverURL token : string)
  : M (result string) :=
  let url := serverURL ++ "/api/v4/users/me" in
  match http_NewRequest w "GET" url with
  | Some err => ret (Err err)
  | None =>
    let req := {| req_Method := "GET"; req_URL := url;
                  req_Authorization := "Bearer " ++ token;
                  req_multipart := false; req_parts := [] |} in
    resp <- Do w req ;;
    match resp with
    | Err err => ret (Err err)
    | Ok resp =>
      if negb (StatusCode resp =? StatusOK) then
        let respBody := body_data (resp_Body resp) in
        ret (Err (fmt.Sprintf "status %d: %s"
                    [fmt.AInt (StatusCode resp); fmt.AStr respBody]))
      else
        ret (json_Decode_UserInfo w (resp_Body resp))
    end
  end.

(** The format of the metadata field: an object with the members name
    and creator_id, both strings, each filled in by a [%s]. *)
Definition emojiMeta_format : string :=
  "{" ++ dq ++ "name" ++ dq ++ ":" ++ dq ++ "%s" ++ dq ++ ","
      ++ dq ++ "creator_id" ++ dq ++ ":" ++ dq ++ "%s" ++ dq ++ "}".

Definition emojiMeta (name creatorID : string) : string :=
  fmt.Sprintf emojiMeta_format [fmt.AStr name; fmt.AStr creatorID].

(** [uploadToMattermost] performs the multipart/form-data POST request;
    its value is the error, [None] standing for [nil].  Writing the parts
    into the in-memory buffer cannot fail. *)
Definition uploadToMattermost (w : World)
           (serverURL token name imgData contentType creatorID : string)
  : M (option string) :=
  (* 'emoji' field containing JSON metadata with creator_id *)
  let emoji := {| part_name := "emoji"; part_filename := None;
                  part_data := emojiMeta name creatorID |} in
  (* 'image' field containing binary data *)
  let ext :=
    if String.eqb contentType "image/gif" then ".gif"
    else if String.eqb contentType "image/jpeg" then ".jpg"
    else ".png" in
  let image := {| part_name := "image"; part_filename := Some (name ++ ext);
                  part_data := imgData |} in
  let url := serverURL ++ "/api/v4/emoji" in
  match http_NewRequest w "POST" url with
  | Some err => ret (Some err)
  | None =>
    let req := {| req_Method := "POST"; req_URL := url;
                  req_Authorization := "Bearer " ++ token;
                  req_multipart := true; req_parts := [emoji; image] |} in
    resp <- Do w req ;;
    match resp with
    | Err err => ret (Some err)
    | Ok resp =>
      (* Mattermost may return either 200 or 201 for a created emoji *)
      if negb (StatusCode resp =? StatusOK)
         && negb (StatusCode resp =? StatusCreated) then
        let respBody := body_data (resp_Body resp) in
        ret (Some (fmt.Sprintf "status %d: %s"
                     [fmt.AInt (StatusCode resp); fmt.AStr respBody]))
      else ret None
    end
  end.

(* ================================================================== *)
(** * main.go: the import loop                                         *)
(* ================================================================== *)

(** The branch in which one iteration of the loop ends.  The program only
    prints it; the embedding also returns it. *)
Inductive Outcome :=
| AliasSkipped                      (* "Skipped (alias ...)" *)
| FetchFailed (detail : string)     (* "Download error: ..." *)
| Uploaded                          (* "Success!" *)
| DuplicateSkipped                  (* "Skipped (already exists ...)" *)
| UploadFailed (detail : string).   (* "Upload error: ..." *)

Record Flags := {
  serverURL : string;
  token : string;
  jsonFile : string
}.

(** The body of [for originalName, url := range emojis]. *)
Definition loop_body (lib : Libs) (w : World) (f : Flags) (userID : string)
           (entry : string * string) : M Outcome :=
  let '(originalName, url) := entry in
  (* Clean the name to meet Mattermost requirements *)
  let safeName := sanitizeEmojiName lib originalName in
  Printf "Processing: [:%s:] -> [:%s:]... "
         [fmt.AStr originalName; fmt.AStr safeName] ;;
  (* Skip aliases *)
  if HasPrefix url "alias:" then
    Println "⏭️  Skipped (alias - references existing emoji)" ;;
    ret AliasSkipped                                        (* continue *)
  else
    (* Download the image into a temporary memory buffer *)
    img <- downloadImage w url ;;
    match img with
    | Err err =>
      Printf ("❌ Download error: %v" ++ nl) [fmt.AStr err] ;;
      ret (FetchFailed err)                                 (* continue *)
    | Ok (imgData, contentType) =>
      (* Upload the buffer to Mattermost *)
      err <- uploadToMattermost w (serverURL f) (token f) safeName
                                imgData contentType userID ;;
      o <- match err with
           | Some err =>
             (* Mattermost returns 400 for duplicates *)
             if Contains err "400" then
               Println "⚠️  Skipped (already exists or invalid name)" ;;
               ret DuplicateSkipped
             else
               Printf ("❌ Upload error: %v" ++ nl) [fmt.AStr err] ;;
               ret (UploadFailed err)
           | None =>
             Println "✅ Success!" ;;
             ret Uploaded
           end ;;
      (* Brief pause to avoid triggering rate limits *)
      Sleep 200 ;;
      ret o
    end.

(** The [range] loop: the iterations in sequence, each entry paired with
    the branch it ended in. *)
Fixpoint for_range (body : string * string -> M Outcome) (emojis : EmojiMap)
  : M (list (string * Outcome)) :=
  match emojis with
  | [] => ret []
  | entry :: rest =>
    o <- body entry ;;
    os <- for_range body rest ;;
    ret ((fst entry, o) :: os)
  end.

(** How [main] ends. *)
Inductive Exit :=
| MissingFlag                       (* os.Exit(1) *)
| ReadFailed                        (* return after "Error reading file" *)
| ParseFailed                       (* return after "Error parsing JSON" *)
| UserIDFailed                      (* return after "Error getting user ID" *)
| Finished (outcomes : list (string * Outcome)).

Definition usage_error (msg : string) : M Exit :=
  Fprintf_Stderr (msg ++ nl) [] ;;
  emit EvUsage ;;
  emit (EvExit 1) ;;
  ret MissingFlag.

(** [main], after [flag.Parse] has filled the three flag variables. *)
Definition main (lib : Libs) (w : World) (f : Flags) : M Exit :=
  (* Validate required flags *)
  if String.eqb (serverURL f) EmptyString then
    usage_error "❌ Error: -server/-s flag is required"
  else if String.eqb (token f) EmptyString then
    usage_error "❌ Error: -token/-t flag is required"
  else if String.eqb (jsonFile f) EmptyString then
    usage_error "❌ Error: -file/-f flag is required"
  else
    (* Read the JSON source file *)
    file <- ReadFile w (jsonFile f) ;;
    match file with
    | Err err =>
      Printf ("❌ Error reading file: %v" ++ nl) [fmt.AStr err] ;;
      ret ReadFailed
    | Ok file =>
      match json_Unmarshal w file with
      | Err err =>
        Printf ("❌ Error parsing JSON: %v" ++ nl) [fmt.AStr err] ;;
        ret ParseFailed
      | Ok emojis =>
        (* Get user ID from token *)
        uid <- getUserID w (serverURL f) (token f) ;;
        match uid with
        | Err err =>
          Printf ("❌ Error getting user ID: %v" ++ nl) [fmt.AStr err] ;;
          ret UserIDFailed
        | Ok userID =>
          Printf ("🚀 Starting import of %d emojis..." ++ nl ++ nl)
                 [fmt.AInt (Z.of_nat (List.length emojis))] ;;
          outcomes <- for_range (loop_body lib w f userID) emojis ;;
          ret (Finished outcomes)
        end
      end
    end.

(* ================================================================== *)
(** * JSON texts (RFC 8259)                                            *)
(* ================================================================== *)

(** The metadata field is read by the server as a JSON text.  This module
    is the yardstick for "well-formed JSON": a reader of the RFC 8259
    grammar that returns the value a text denotes.  Bytes above ASCII are
    accepted in strings as they are. *)
Module JSON.

#[local] Set Warnings "-register-all".

Inductive value :=
| JNull
| JBool (b : bool)
| JNumber (text : string)
| JString (s : string)
| JArray (items : list value)
| JObject (members : list (string * value)).

Definition is_ws (c : ascii) : bool :=
  let b := byte_val c in (b =? 32) || (b =? 9) || (b =? 10) || (b =? 13).

Fixpoint skip_ws (s : string) : string :=
  match s with
  | String c s' => if is_ws c then skip_ws s' else s
  | EmptyString => s
  end.

(** ** Strings *)

(** The pieces of a string literal: a byte standing for itself, a
    two-byte escape (kept by the byte it denotes) and a [\uXXXX] escape
    (kept by its 16-bit value). *)
Inductive item :=
| Lit (c : ascii)
| Esc (c : ascii)
| Unit (u : Z).

Definition quote_char : ascii := "034"%char.
Definition backslash_char : ascii := "\"%char.

(** A byte that may stand unescaped inside a string literal. *)
Definition plain_char (c : ascii) : bool :=
  negb (Ascii.eqb c quote_char) && negb (Ascii.eqb c backslash_char)
  && negb (byte_val c <? 0x20).

Definition unescape (e : ascii) : option ascii :=
  if Ascii.eqb e quote_char then Some quote_char
  else if Ascii.eqb e backslash_char then Some backslash_char
  else if Ascii.eqb e "/" then Some "/"%char
  else if Ascii.eqb e "b" then Some "008"%char
  else if Ascii.eqb e "f" then Some "012"%char
  else if Ascii.eqb e "n" then Some "010"%char
  else if Ascii.eqb e "r" then Some "013"%char
  else if Ascii.eqb e "t" then Some "009"%char
  else None.

Definition hex_val (c : ascii) : option Z :=
  let b := byte_val c in
  if (48 <=? b) && (b <=? 57) then Some (b - 48)
  else if (97 <=? b) && (b <=? 102) then Some (b - 87)
  else if (65 <=? b) && (b <=? 70) then Some (b - 55)
  else None.

Definition hex4 (h1 h2 h3 h4 : ascii) : option Z :=
  match hex_val h1, hex_val h2, hex_val h3, hex_val h4 with
  | Some a, Some b, Some c, Some d => Some (((a * 16 + b) * 16 + c) * 16 + d)
  | _, _, _, _ => None
  end.

Definition push (i : item) (r : option (list item * string))
  : option (list item * string) :=
  match r with
  | Some (l, rest) => Some (i :: l, rest)
  | None => None
  end.

(** Reads a string literal whose opening quote has been consumed: its
    pieces up to the closing quote and the text behind that quote. *)
Fixpoint scan_items (s : string) : option (list item * string) :=
  match s with
  | EmptyString => None
  | String c s1 =>
    if Ascii.eqb c quote_char then Some ([], s1)
    else if Ascii.eqb c backslash_char then
      match s1 with
      | EmptyString => None
      | String e s2 =>
        if Ascii.eqb e "u" then
          match s2 with
          | String h1 (String h2 (String h3 (String h4 s6))) =>
            match hex4 h1 h2 h3 h4 with
            | Some u => push (Unit u) (scan_items s6)
            | None => None
            end
          | _ => None
          end
        else
          match unescape e with
          | Some d => push (Esc d) (scan_items s2)
          | None => None
          end
      end
    else if byte_val c <? 0x20 then None
    else push (Lit c) (scan_items s1)
  end.

Definition is_high (u : Z) : bool := (0xD800 <=? u) && (u <=? 0xDBFF).
Definition is_low (u : Z) : bool := (0xDC00 <=? u) && (u <=? 0xDFFF).

(** The bytes a literal denotes: a surrogate pair is one code point, a
    lone surrogate becomes U+FFFD. *)
Fixpoint decode_items (l : list item) : string :=
  match l with
  | [] => EmptyString
  | Lit c :: l' => String c (decode_items l')
  | Esc c :: l' => String c (decode_items l')
  | Unit hi :: l' =>
    match l' with
    | Unit lo :: l'' =>
      if is_high hi && is_low lo
      then utf8.EncodeRune (0x10000 + (hi - 0xD800) * 0x400 + (lo - 0xDC00))
             ++ decode_items l''
      else utf8.EncodeRune hi ++ decode_items l'
    | _ => utf8.EncodeRune hi ++ decode_items l'
    end
  end.

Definition scan_string (s : string) : option (string * string) :=
  match scan_items s with
  | Some (l, rest) => Some (decode_items l, rest)
  | None => None
  end.

(** ** Numbers *)

Definition is_digit (c : ascii) : bool :=
  (48 <=? byte_val c) && (byte_val c <=? 57).

Fixpoint span_digits (s : string) : string * string :=
  match s with
  | String c s' =>
    if is_digit c
    then let '(d, r) := span_digits s' in (String c d, r)
    else (EmptyString, s)
  | EmptyString => (EmptyString, s)
  end.

Definition nonempty (s : string) : bool :=
  match s with EmptyString => false | String _ _ => true end.

(** [int = zero / ( digit1-9 *DIGIT )] *)
Definition scan_int (s : string) : option (string * string) :=
  match s with
  | String c s' =>
    if Ascii.eqb c "0" then Some (str1 c, s')
    else if is_digit c then
      let '(d, r) := span_digits s' in Some (String c d, r)
    else None
  | EmptyString => None
  end.

(** [frac = decimal-point 1*DIGIT], optional *)
Definition scan_frac (s : string) : option (string * string) :=
  match s with
  | String c s' =>
    if Ascii.eqb c "." then
      let '(d, r) := span_digits s' in
      if nonempty d then Some (String c d, r) else None
    else Some (EmptyString, s)
  | EmptyString => Some (EmptyString, s)
  end.

(** [exp = e [ minus / plus ] 1*DIGIT], optional *)
Definition scan_exp (s : string) : option (string * string) :=
  match s with
  | String c s' =>
    if Ascii.eqb c "e" || Ascii.eqb c "E" then
      let '(sign, s'') :=
        match s' with
        | String g t =>
          if Ascii.eqb g "+" || Ascii.eqb g "-" then (str1 g, t)
          else (EmptyString, s')
        | EmptyString => (EmptyString, s')
        end in
      let '(d, r) := span_digits s'' in
      if nonempty d then Some (String c (sign ++ d), r) else None
    else Some (EmptyString, s)
  | EmptyString => Some (EmptyString, s)
  end.

Definition scan_number (s : string) : option (string * string) :=
  let '(minus, s0) :=
    match s with
    | String c s' => if Ascii.eqb c "-" then (str1 c, s') else (EmptyString, s)
    | EmptyString => (EmptyString, s)
    end in
  match scan_int s0 with
  | None => None
  | Some (i, s1) =>
    match scan_frac s1 with
    | None => None
    | Some (f, s2) =>
      match scan_exp s2 with
      | None => None
      | Some (e, s3) => Some (minus ++ i ++ f ++ e, s3)
      end
    end
  end.

(** ** Values *)

Inductive mode :=
| MValue     (* one value *)
| MElems     (* the elements of an array up to its bracket *)
| MMembers.  (* the members of an object up to its brace *)

(** In mode [MElems] the result is the array of the elements read, in
    mode [MMembers] the object of the members read.  Every nested call
    takes one unit of [fuel]. *)
Fixpoint parse (fuel : nat) (m : mode) (s : string)
  : option (value * string) :=
  match fuel with
  | O => None
  | S fuel' =>
    match m with
    | MValue =>
      match skip_ws s with
      | EmptyString => None
      | String c s' =>
        if Ascii.eqb c "[" then
          match skip_ws s' with
          | String c' s'' =>
            if Ascii.eqb c' "]" then Some (JArray [], s'')
            else parse fuel' MElems s'
          | EmptyString => None
          end
        else if Ascii.eqb c "{" then
          match skip_ws s' with
          | String c' s'' =>
            if Ascii.eqb c' "}" then Some (JObject [], s'')
            else parse fuel' MMembers s'
          | EmptyString => None
          end
        else if Ascii.eqb c quote_char then
          match scan_string s' with
          | Some (d, r) => Some (JString d, r)
          | None => None
          end
        else if HasPrefix (String c s') "true" then Some (JBool true, drop 4 (String c s'))
        else if HasPrefix (String c s') "false" then Some (JBool false, drop 5 (String c s'))
        else if HasPrefix (String c s') "null" then Some (JNull, drop 4 (String c s'))
        else
          match scan_number (String c s') with
          | Some (n, r) => Some (JNumber n, r)
          | None => None
          end
      end
    | MElems =>
      match parse fuel' MValue s with
      | None => None
      | Some (v, r) =>
        match skip_ws r with
        | String c r' =>
          if Ascii.eqb c "," then
            match parse fuel' MElems r' with
            | Some (JArray vs, r'') => Some (JArray (v :: vs), r'')
            | _ => None
            end
          else if Ascii.eqb c "]" then Some (JArray [v], r')
          else None
        | EmptyString => None
        end
      end
    | MMembers =>
      match skip_ws s with
      | String q s1 =>
        if Ascii.eqb q quote_char then
          match scan_string s1 with
          | None => None
          | Some (k, s2) =>
            match skip_ws s2 with
            | String c s3 =>
              if Ascii.eqb c ":" then
                match parse fuel' MValue s3 with
                | None => None
                | Some (v, r) =>
                  match skip_ws r with
                  | String c' r' =>
                    if Ascii.eqb c' "," then
                      match parse fuel' MMembers r' with
                      | Some (JObject ms, r'') =>
                        Some (JObject ((k, v) :: ms), r'')
                      | _ => None
                      end
                    else if Ascii.eqb c' "}" then Some (JObject [(k, v)], r')
                    else None
                  | EmptyString => None
                  end
                end
              else None
            | EmptyString => None
            end
          end
        else None
      | EmptyString => None
      end
    end
  end.

(** [JSON-text = ws value ws].  A nested call is made only after a byte
    was consumed or by a list mode for its first value, so twice the
    length of the text bounds the depth of the calls. *)
Definition decode (s : string) : option value :=
  match parse (String.length s + String.length s + 2) MValue s with
  | Some (v, r) =>
    match skip_ws r with
    | EmptyString => Some v
    | String _ _ => None
    end
  | None => None
  end.

Definition well_formed (s : string) : bool :=
  match decode s with Some _ => true | None => false end.

End JSON.

(* ================================================================== *)
(** * Vocabulary of the properties                                     *)
(* ================================================================== *)

(** The alphabet of a Mattermost emoji name. *)
Definition alphabet : string := "abcdefghijklmnopqrstuvwxyz0123456789_-".

Definition alphabet_char (c : ascii) : bool :=
  existsb (Ascii.eqb c) (list_ascii_of_string alphabet).

Definition in_alphabet (s : string) : bool :=
  forallb alphabet_char (list_ascii_of_string s).

(** A string in which every byte may stand unescaped in a JSON string. *)
Definition json_plain (s : string) : bool :=
  forallb JSON.plain_char (list_ascii_of_string s).

Definition is_alias (entry : string * string) : bool :=
  HasPrefix (snd entry) "alias:".

(** The URLs fetched, the requests posted and the pauses made in a list of
    events. *)
Definition fetch_of (e : Event) : list string :=
  match e with EvGet url => [url] | _ => [] end.

Definition post_of (e : Event) : list Request :=
  match e with
  | EvDo req => if String.eqb (req_Method req) "POST" then [req] else []
  | _ => []
  end.

Definition sleep_of (e : Event) : list Z :=
  match e with EvSleep ms => [ms] | _ => [] end.

Definition processing_of (e : Event) : list string :=
  match e with
  | EvStdout s => if HasPrefix s "Processing: " then [s] else []
  | _ => []
  end.

Definition fetches (l : list Event) : list string := flat_map fetch_of l.
Definition posts (l : list Event) : list Request := flat_map post_of l.
Definition sleeps (l : list Event) : list Z := flat_map sleep_of l.
Definition processing_lines (l : list Event) : list string :=
  flat_map processing_of l.

(** The outcomes that follow a call of [uploadToMattermost]. *)
Definition upload_attempted (o : Outcome) : bool :=
  match o with
  | Uploaded | DuplicateSkipped | UploadFailed _ => true
  | AliasSkipped | FetchFailed _ => false
  end.

Definition fetch_failed (o : Outcome) : bool :=
  match o with FetchFailed _ => true | _ => false end.

Definition count_outcomes (p : Outcome -> bool) (l : list (string * Outcome))
  : nat :=
  List.length (filter (fun no => p (snd no)) l).

Definition flags_set (f : Flags) : Prop :=
  serverURL f <> EmptyString /\ token f <> EmptyString
  /\ jsonFile f <> EmptyString.

(** The first line an iteration prints. *)
Definition processing_line (lib : Libs) (entry : string * string) : string :=
  "Processing: [:" ++ fst entry ++ ":] -> [:"
    ++ sanitizeEmojiName lib (fst entry) ++ ":]... ".

(** The line an iteration prints when it ends in the given branch. *)
Definition report (o : Outcome) : string :=
  match o with
  | AliasSkipped => "⏭️  Skipped (alias - references existing emoji)" ++ nl
  | FetchFailed err => "❌ Download error: " ++ err ++ nl
  | Uploaded => "✅ Success!" ++ nl
  | DuplicateSkipped => "⚠️  Skipped (already exists or invalid name)" ++ nl
  | UploadFailed err => "❌ Upload error: " ++ err ++ nl
  end.

(** What [uploadToMattermost] may send: nothing, when the request could
    not be built, or one POST. *)
Inductive upload_events : list Event -> Prop :=
| ue_none : upload_events []
| ue_post (req : Request) :
    req_Method req = "POST" -> upload_events [EvDo req].

(** The events of one iteration, in chronological order, with the branch
    it ends in. *)
Inductive entry_events (lib : Libs) (entry : string * string)
  : Outcome -> list Event -> Prop :=
| ee_alias :
    is_alias entry = true ->
    entry_events lib entry AliasSkipped
      [EvStdout (processing_line lib entry); EvStdout (report AliasSkipped)]
| ee_fetch_failed (err : string) :
    is_alias entry = false ->
    entry_events lib entry (FetchFailed err)
      [EvStdout (processing_line lib entry); EvGet (snd entry);
       EvStdout (report (FetchFailed err))]
| ee_upload (o : Outcome) (posted : list Event) :
    is_alias entry = false ->
    upload_attempted o = true ->
    upload_events posted ->
    entry_events lib entry o
      ([EvStdout (processing_line lib entry); EvGet (snd entry)]
         ++ posted ++ [EvStdout (report o); EvSleep 200])%list.

(** The events of the whole loop. *)
Inductive loop_events (lib : Libs)
  : EmojiMap -> list (string * Outcome) -> list Event -> Prop :=
| le_nil : loop_events lib [] [] []
| le_cons entry rest o os evs evs' :
    entry_events lib entry o evs ->
    loop_events lib rest os evs' ->
    loop_events lib (entry :: rest) ((fst entry, o) :: os) (evs ++ evs')%list.

(** The banner printed in front of the loop. *)
Definition banner (emojis : EmojiMap) : string :=
  "🚀 Starting import of " ++ fmt_d (Z.of_nat (List.length emojis))
    ++ " emojis..." ++ nl ++ nl.

(** Every rune a [range] loop reports below 0x80 stands for one byte. *)
Definition single_byte (rb : rune * string) : Prop :=
  fst rb < 0x80 -> exists c, snd rb = str1 c /\ byte_val c = fst rb.

Definition not_alias (entry : string * string) : bool := negb (is_alias entry).

(** Events that are neither a download, nor an upload, nor a pause, nor
    the first line of an iteration. *)
Definition quiet (l : list Event) : Prop :=
  fetches l = [] /\ posts l = [] /\ sleeps l = [] /\ processing_lines l = [].

Definition meta_object (name creatorID : string) : JSON.value :=
  JSON.JObject [("name", JSON.JString name);
                ("creator_id", JSON.JString creatorID)].

(** The text of an object member up to the content of its string value:
    the quoted key [k], a colon and an opening quote, followed by [rest]. *)
Definition member_text (k rest : string) : string :=
  String JSON.quote_char
    (k ++ String JSON.quote_char (String ":" (String JSON.quote_char rest))).

(** What the reader does behind the value [v] of the member [k]: a comma
    continues the object, a brace ends it. *)
Definition member_tail (fuel : nat) (k : string) (v : JSON.value) (r : string)
  : option (JSON.value * string) :=
  match JSON.skip_ws r with
  | String c r' =>
    if Ascii.eqb c "," then
      match JSON.parse fuel JSON.MMembers r' with
      | Some (JSON.JObject ms, r'') => Some (JSON.JObject ((k, v) :: ms), r'')
      | _ => None
      end
    else if Ascii.eqb c "}" then Some (JSON.JObject [(k, v)], r')
    else None
  | EmptyString => None
  end.

(** The number of source bytes of a literal's pieces, and the number of
    its escapes. *)
Definition raw_len (i : JSON.item) : nat :=
  match i with JSON.Lit _ => 1 | JSON.Esc _ => 2 | JSON.Unit _ => 6 end.

Definition escapes (i : JSON.item) : nat :=
  match i with JSON.Lit _ => 0 | _ => 1 end.

Definition sum_of (f : JSON.item -> nat) (l : list JSON.item) : nat :=
  fold_right (fun i n => (f i + n)%nat) 0%nat l.

(* ================================================================== *)
(** * Vocabulary of the further properties                             *)
(* ================================================================== *)

(** Byte-wise operations on strings. *)
Fixpoint map_bytes (f : ascii -> ascii) (s : string) : string :=
  match s with
  | EmptyString => EmptyString
  | String c s' => String (f c) (map_bytes f s')
  end.

Fixpoint filter_bytes (p : ascii -> bool) (s : string) : string :=
  match s with
  | EmptyString => EmptyString
  | String c s' => if p c then String c (filter_bytes p s') else filter_bytes p s'
  end.

(** An ASCII capital becomes its small letter, a space a dash. *)
Definition fold_byte (c : ascii) : ascii :=
  let b := byte_val c in
  if (65 <=? b) && (b <=? 90) then byte_of (b + 32)
  else if Ascii.eqb c " " then "-"%char
  else c.

(** Strings of bytes below 0x7F, which the transliteration copies. *)
Definition below_del (s : string) : bool :=
  forallb (fun c => byte_val c <? 0x7F) (list_ascii_of_string s).

(** [sub] occurs in [s]. *)
Definition occurs_in (sub s : string) : Prop :=
  exists a b, s = a ++ sub ++ b.

(** The extension of the uploaded file name. *)
Definition ext_of (contentType : string) : string :=
  if String.eqb contentType "image/gif" then ".gif"
  else if String.eqb contentType "image/jpeg" then ".jpg"
  else ".png".

(** The request expected for the upload of [imgData] under [name]. *)
Definition upload_request (f : Flags) (name imgData contentType creatorID : string)
  : Request := {|
  req_Method := "POST";
  req_URL := serverURL f ++ "/api/v4/emoji";
  req_Authorization := "Bearer " ++ token f;
  req_multipart := true;
  req_parts :=
    [{| part_name := "emoji"; part_filename := None;
        part_data := emojiMeta name creatorID |};
     {| part_name := "image";
        part_filename := Some (name ++ ext_of contentType);
        part_data := imgData |}]
|}.

(** The request expected for the identity of the token's owner. *)
Definition me_request (f : Flags) : Request := {|
  req_Method := "GET";
  req_URL := serverURL f ++ "/api/v4/users/me";
  req_Authorization := "Bearer " ++ token f;
  req_multipart := false;
  req_parts := []
|}.

(** The error of an upload as a function of the answer to its request. *)
Definition upload_error_text (r : result Response) : option string :=
  match r with
  | Err e => Some e
  | Ok resp =>
    if (StatusCode resp =? 200) || (StatusCode resp =? 201) then None
    else Some ("status " ++ fmt_d (StatusCode resp) ++ ": "
                 ++ body_data (resp_Body resp))
  end.

(** The branch an iteration ends in, given the error of its upload. *)
Definition outcome_of_error (err : option string) : Outcome :=
  match err with
  | None => Uploaded
  | Some e => if Contains e "400" then DuplicateSkipped else UploadFailed e
  end.

Definition stdout_of (e : Event) : list string :=
  match e with EvStdout s => [s] | _ => [] end.

Definition request_of (e : Event) : list Request :=
  match e with EvDo req => [req] | _ => [] end.

Definition stdouts (l : list Event) : list string := flat_map stdout_of l.
Definition requests (l : list Event) : list Request := flat_map request_of l.

(** The two lines an entry leaves on the console. *)
Definition entry_lines (lib : Libs) (eo : (string * string) * Outcome)
  : list string :=
  [processing_line lib (fst eo); report (snd eo)].

(** The events of one iteration with the request it sends: the upload
    either could not be built, and nothing is sent, or the expected request
    goes out with the bytes [img] and the media type [ct]. *)
Inductive entry_run (lib : Libs) (w : World) (f : Flags) (uid : string)
          (entry : string * string) : Outcome -> list Event -> Prop :=
| er_alias :
    is_alias entry = true ->
    entry_run lib w f uid entry AliasSkipped
      [EvStdout (processing_line lib entry); EvStdout (report AliasSkipped)]
| er_fetch_failed (err : string) :
    is_alias entry = false ->
    entry_run lib w f uid entry (FetchFailed err)
      [EvStdout (processing_line lib entry); EvGet (snd entry);
       EvStdout (report (FetchFailed err))]
| er_unsent (o : Outcome) :
    is_alias entry = false ->
    upload_attempted o = true ->
    http_NewRequest w "POST" (serverURL f ++ "/api/v4/emoji") <> None ->
    entry_run lib w f uid entry o
      [EvStdout (processing_line lib entry); EvGet (snd entry);
       EvStdout (report o); EvSleep 200]
| er_sent (o : Outcome) (img ct : string) :
    is_alias entry = false ->
    upload_attempted o = true ->
    http_NewRequest w "POST" (serverURL f ++ "/api/v4/emoji") = None ->
    entry_run lib w f uid entry o
      [EvStdout (processing_line lib entry); EvGet (snd entry);
       EvDo (upload_request f (sanitizeEmojiName lib (fst entry)) img ct uid);
       EvStdout (report o); EvSleep 200].

Inductive loop_run (lib : Libs) (w : World) (f : Flags) (uid : string)
  : EmojiMap -> list Outcome -> list Event -> Prop :=
| lr_nil : loop_run lib w f uid [] [] []
| lr_cons entry rest o os evs evs' :
    entry_run lib w f uid entry o evs ->
    loop_run lib w f uid rest os evs' ->
    loop_run lib w f uid (entry :: rest) (o :: os) (evs ++ evs')%list.

(** A request of the run that uploads some entry of the manifest that is
    no alias. *)
Definition uploads_entry_of (lib : Libs) (f : Flags) (uid : string)
           (emojis : EmojiMap) (req : Request) : Prop :=
  exists entry img ct,
    In entry emojis /\ is_alias entry = false
    /\ req = upload_request f (sanitizeEmojiName lib (fst entry)) img ct uid.

(* ================================================================== *)
(** * Sample environments                                              *)
(* ================================================================== *)

(** A sample transliteration table: block 0x04 with the small Cyrillic
    letters from U+0430 to U+0443, every other position empty. *)
Definition sample_block_04 : list string :=
  (repeat EmptyString 48
     ++ ["a"; "b"; "v"; "g"; "d"; "e"; "zh"; "z"; "i"; "i";
         "k"; "l"; "m"; "n"; "o"; "p"; "r"; "s"; "t"; "u"])%list.

Definition sample_libs : Libs := {|
  table_Tables := fun section => if section =? 4 then Some sample_block_04 else None;
  unicode_To_LowerCase := fun r => r
|}.

Definition sample_flags : Flags := {|
  serverURL := "https://mattermost.example.com";
  token := "abc123xyz789";
  jsonFile := "emoji.json"
|}.

Definition sample_response (status : Z) (contentType body : string)
  : result Response :=
  Ok {| StatusCode := status; Header_ContentType := contentType;
        resp_Body := {| body_data := body; body_err := None |} |}.

(** A world whose manifest is [manifest], whose identity endpoint answers
    with [me], whose image host answers every download with [fetched] and
    whose emoji endpoint answers every upload with [created]. *)
Definition sample_world (manifest : EmojiMap) (me fetched created : result Response)
  : World := {|
  os_ReadFile := fun _ => Ok "{}";
  json_Unmarshal := fun _ => Ok manifest;
  http_NewRequest := fun _ _ => None;
  client_Get := fun _ _ => fetched;
  client_Do := fun _ req =>
    if String.eqb (req_Method req) "GET" then me else created;
  json_Decode_UserInfo := fun _ => Ok "u1"
|}.

Definition ok_me : result Response :=
  sample_response 200 "application/json" "{}".
Definition ok_png : result Response := sample_response 200 "image/png" "PNG".
Definition ok_created : result Response :=
  sample_response 201 "application/json" "{}".

(** Manifests and answers used in the examples below. *)
Definition alias_manifest : EmojiMap := [("shipit", "alias:squirrel")].

Definition mixed_manifest : EmojiMap :=
  [("shipit", "alias:squirrel");
   ("My Emoji", "https://emoji.example.com/my.png");
   ("жду", "https://emoji.example.com/zhdu.png")].

Definition not_found : result Response :=
  sample_response 404 "text/plain" "not found".
Definition unauthorized : result Response :=
  sample_response 401 "application/json" "{}".
Definition server_error_400 : result Response :=
  sample_response 500 "text/plain" "internal error, request 7400".

(* ================================================================== *)
(** * Bytes, runes and the UTF-8 decoder                               *)
(* ================================================================== *)

Lemma byte_val_range (c : ascii) : 0 <= byte_val c < 256.
Proof.
  unfold byte_val. pose proof (N_ascii_bounded c). lia.
Qed.

Lemma byte_of_val (c : ascii) : byte_of (byte_val c) = c.
Proof.
  unfold byte_of, byte_val. rewrite N2Z.id. apply ascii_N_embedding.
Qed.

Lemma allowed_alphabet_char (c : ascii) :
  regexp.allowed (byte_val c) = alphabet_char c.
Proof.
  destruct c as [[] [] [] [] [] [] [] []]; vm_compute; reflexivity.
Qed.

Lemma lor_lower_l (a b : Z) : 0 <= b -> a <= Z.lor a b.
Proof.
  intro Hb. pose proof (Z.sub_lor_l_same_l b a) as E.
  assert (0 <= Z.land b (Z.lnot a)) by (apply Z.land_nonneg; auto).
  lia.
Qed.

Lemma lor_lower_r (a b : Z) : 0 <= a -> b <= Z.lor a b.
Proof.
  intro Ha. rewrite Z.lor_comm. now apply lor_lower_l.
Qed.

Lemma land_mask_nonneg (a m : Z) : 0 <= m -> 0 <= Z.land a m.
Proof. intro. apply Z.land_nonneg. auto. Qed.

Lemma shiftl_land_nonneg (a m k : Z) : 0 <= m -> 0 <= Z.shiftl (Z.land a m) k.
Proof. intro. apply Z.shiftl_nonneg. now apply land_mask_nonneg. Qed.

Lemma first_sized (s0 : Z) (sz : nat) (lo hi : Z) :
  utf8.first s0 = utf8.sized sz lo hi ->
  0x80 <= lo /\ hi <= 0xBF /\
  ((sz = 2%nat /\ 0xC2 <= s0 <= 0xDF)
   \/ (sz = 3%nat /\ (0xE1 <= s0 <= 0xEF \/ (s0 = 0xE0 /\ 0xA0 <= lo)))
   \/ (sz = 4%nat /\ (0xF1 <= s0 <= 0xF4 \/ (s0 = 0xF0 /\ 0x90 <= lo)))).
Proof.
  unfold utf8.first, utf8.locb, utf8.hicb.
  repeat match goal with
         | |- context [?a <? ?b] => destruct (Z.ltb_spec a b)
         | |- context [?a =? ?b] => destruct (Z.eqb_spec a b)
         end; intro E; inversion E; subst; lia.
Qed.

Lemma land_ones_5 (a : Z) : Z.land a utf8.mask2 = a mod 32.
Proof. exact (Z.land_ones a 5 ltac:(lia)). Qed.
Lemma land_ones_4 (a : Z) : Z.land a utf8.mask3 = a mod 16.
Proof. exact (Z.land_ones a 4 ltac:(lia)). Qed.
Lemma land_ones_3 (a : Z) : Z.land a utf8.mask4 = a mod 8.
Proof. exact (Z.land_ones a 3 ltac:(lia)). Qed.
Lemma land_ones_6 (a : Z) : Z.land a utf8.maskx = a mod 64.
Proof. exact (Z.land_ones a 6 ltac:(lia)). Qed.

(** A rune below 0x80 is always decoded from the single byte of that
    value: the decoder refuses over-long encodings. *)
Lemma decode_ascii_rune (c : ascii) (t : string) (r : rune) (w : nat) :
  utf8.DecodeRuneInString (String c t) = (r, w) ->
  r < 0x80 -> w = 1%nat /\ r = byte_val c.
Proof.
  unfold utf8.DecodeRuneInString.
  pose proof (byte_val_range c) as Hc.
  destruct (utf8.first (byte_val c)) as [| |sz lo hi] eqn:F.
  - intros E _. inversion E. auto.
  - intros E. inversion E. unfold utf8.RuneError. lia.
  - apply first_sized in F. destruct F as (Hlo & Hhi & F).
    assert (BAD : forall r' w', (utf8.RuneError, 1%nat) = (r', w') ->
                                r' < 0x80 -> w' = 1%nat /\ r' = byte_val c).
    { intros r' w' E. inversion E. unfold utf8.RuneError. lia. }
    destruct t as [|c1 t1]; [apply BAD|].
    pose proof (byte_val_range c1) as Hc1.
    unfold utf8.in_range.
    destruct (Z.leb_spec lo (byte_val c1)); [|apply BAD].
    destruct (Z.leb_spec (byte_val c1) hi); [|apply BAD].
    cbn [andb negb].
    assert (H6 : 0 <= Z.land (byte_val c1) utf8.maskx)
      by (apply land_mask_nonneg; unfold utf8.maskx; lia).
    destruct (Nat.leb_spec sz 2).
    { intros E Hr. apply pair_equal_spec in E. destruct E as [<- <-]. exfalso.
      pose proof (lor_lower_l (Z.shiftl (Z.land (byte_val c) utf8.mask2) 6)
                              (Z.land (byte_val c1) utf8.maskx) H6) as L.
      rewrite Z.shiftl_mul_pow2, land_ones_5 in * by lia.
      change (2 ^ 6) with 64 in *.
      assert (2 <= byte_val c mod 32) by (Z.div_mod_to_equations; lia).
      lia. }
    destruct t1 as [|c2 t2]; [apply BAD|].
    destruct (Z.leb_spec utf8.locb (byte_val c2)); [|apply BAD].
    destruct (Z.leb_spec (byte_val c2) utf8.hicb); [|apply BAD].
    cbn [andb negb].
    assert (H6' : 0 <= Z.land (byte_val c2) utf8.maskx)
      by (apply land_mask_nonneg; unfold utf8.maskx; lia).
    destruct (Nat.leb_spec sz 3).
    { intros E Hr. apply pair_equal_spec in E. destruct E as [<- <-]. exfalso.
      set (A := Z.shiftl (Z.land (byte_val c) utf8.mask3) 12) in *.
      set (B := Z.shiftl (Z.land (byte_val c1) utf8.maskx) 6) in *.
      assert (0 <= A) by (apply shiftl_land_nonneg; unfold utf8.mask3; lia).
      assert (0 <= B) by (apply shiftl_land_nonneg; unfold utf8.maskx; lia).
      pose proof (lor_lower_l (Z.lor A B) _ H6') as L1.
      pose proof (lor_lower_l A B ltac:(lia)) as L2.
      pose proof (lor_lower_r A B ltac:(lia)) as L3.
      subst A B.
      rewrite !Z.shiftl_mul_pow2, land_ones_4, land_ones_6 in * by lia.
      change (2 ^ 12) with 4096 in *. change (2 ^ 6) with 64 in *.
      assert (1 <= byte_val c mod 16 \/ 32 <= byte_val c1 mod 64)
        by (Z.div_mod_to_equations; lia).
      lia. }
    destruct t2 as [|c3 t3]; [apply BAD|].
    destruct (Z.leb_spec utf8.locb (byte_val c3)); [|apply BAD].
    destruct (Z.leb_spec (byte_val c3) utf8.hicb); [|apply BAD].
    cbn [andb negb].
    intros E Hr. apply pair_equal_spec in E. destruct E as [<- <-]. exfalso.
    set (A := Z.shiftl (Z.land (byte_val c) utf8.mask4) 18) in *.
    set (B := Z.shiftl (Z.land (byte_val c1) utf8.maskx) 12) in *.
    set (C := Z.shiftl (Z.land (byte_val c2) utf8.maskx) 6) in *.
    assert (0 <= A) by (apply shiftl_land_nonneg; unfold utf8.mask4; lia).
    assert (0 <= B) by (apply shiftl_land_nonneg; unfold utf8.maskx; lia).
    assert (0 <= C) by (apply shiftl_land_nonneg; unfold utf8.maskx; lia).
    assert (H6'' : 0 <= Z.land (byte_val c3) utf8.maskx)
      by (apply land_mask_nonneg; unfold utf8.maskx; lia).
    pose proof (lor_lower_l (Z.lor (Z.lor A B) C) _ H6'') as L0.
    pose proof (lor_lower_l (Z.lor A B) C ltac:(lia)) as L1.
    pose proof (lor_lower_l A B ltac:(lia)) as L2.
    pose proof (lor_lower_r A B ltac:(lia)) as L3.
    subst A B C.
    rewrite !Z.shiftl_mul_pow2, land_ones_3, !land_ones_6 in * by lia.
    change (2 ^ 18) with 262144 in *. change (2 ^ 12) with 4096 in *.
    assert (1 <= byte_val c mod 8 \/ 16 <= byte_val c1 mod 64)
      by (Z.div_mod_to_equations; lia).
    lia.
Qed.

Lemma range_fuel_single_byte (fuel : nat) :
  forall s, Forall single_byte (utf8.range_fuel fuel s).
Proof.
  induction fuel as [|fuel IH]; intro s; simpl; [constructor|].
  destruct s as [|c t]; [constructor|].
  destruct (utf8.DecodeRuneInString (String c t)) as [r w] eqn:E.
  constructor; [|apply IH].
  intro Hr. simpl in Hr.
  destruct (decode_ascii_rune _ _ _ _ E Hr) as [-> ->].
  exists c. split; reflexivity.
Qed.

Lemma first_ascii (b : Z) : b < 0x80 -> utf8.first b = utf8.as_ascii.
Proof.
  intro H. unfold utf8.first. destruct (Z.ltb_spec b 128); [reflexivity|lia].
Qed.

(** On a string of ASCII bytes the loop visits the bytes one by one. *)
Lemma range_fuel_ascii (s : string) :
  forall fuel, (String.length s <= fuel)%nat ->
  strings.isASCII s = true ->
  utf8.range_fuel fuel s
  = map (fun c => (byte_val c, str1 c)) (list_ascii_of_string s).
Proof.
  unfold strings.isASCII.
  induction s as [|c t IH]; intros fuel Hf Ha.
  - destruct fuel; reflexivity.
  - destruct fuel as [|fuel]; [simpl in Hf; lia|].
    simpl in Ha. apply andb_prop in Ha. destruct Ha as [Hc Ht].
    apply Z.ltb_lt in Hc.
    cbn [utf8.range_fuel utf8.DecodeRuneInString].
    rewrite (first_ascii _ Hc). cbn [take drop list_ascii_of_string map].
    f_equal. apply IH; [simpl in Hf; lia|exact Ht].
Qed.

Lemma range_ascii (s : string) :
  strings.isASCII s = true ->
  utf8.range s = map (fun c => (byte_val c, str1 c)) (list_ascii_of_string s).
Proof. intro H. apply range_fuel_ascii; [apply Nat.le_refl|exact H]. Qed.

Lemma take_drop (n : nat) : forall s, take n s ++ drop n s = s.
Proof.
  induction n as [|n IH]; intros [|c s]; cbn; try reflexivity.
  now rewrite IH.
Qed.

Lemma drop_length (n : nat) :
  forall s, String.length (drop n s) = (String.length s - n)%nat.
Proof.
  induction n as [|n IH]; intros [|c s]; cbn; try reflexivity.
  apply IH.
Qed.

(** The decoder always consumes between one and four bytes. *)
Lemma DecodeRune_width (c : ascii) (t : string) :
  (1 <= snd (utf8.DecodeRuneInString (String c t)) <= 4)%nat.
Proof.
  unfold utf8.DecodeRuneInString.
  repeat match goal with
         | |- context [match ?x with _ => _ end] =>
           lazymatch x with
           | context [match _ with _ => _ end] => fail
           | _ => destruct x
           end
         end; cbn; lia.
Qed.

(** The loop leaves no byte out: with [len(s)] units of fuel (or more)
    the pieces visited make up the whole string. *)
Lemma range_fuel_complete (fuel : nat) :
  forall s, (String.length s <= fuel)%nat ->
  Join (map snd (utf8.range_fuel fuel s)) = s.
Proof.
  induction fuel as [|fuel IH]; intros [|c t] Hl; cbn in Hl;
    try reflexivity; try lia.
  cbn [utf8.range_fuel].
  pose proof (DecodeRune_width c t) as Hw.
  destruct (utf8.DecodeRuneInString (String c t)) as [r w].
  cbn [snd] in Hw. cbn [map snd Join fold_right].
  fold (Join (map snd (utf8.range_fuel fuel (drop w (String c t))))).
  rewrite IH; [apply take_drop|].
  rewrite drop_length. cbn [String.length]. lia.
Qed.

Lemma range_complete (s : string) : Join (map snd (utf8.range s)) = s.
Proof. apply range_fuel_complete, Nat.le_refl. Qed.

(** More fuel than [len(s)] does not change what [strings.Replace]
    computes. *)
Lemma replace_fuel_enough (old new : string) (fuel : nat) :
  old <> EmptyString ->
  forall s extra, (String.length s <= fuel)%nat ->
  strings.replace_fuel (fuel + extra) s old new
  = strings.replace_fuel fuel s old new.
Proof.
  intro Ho. induction fuel as [|fuel IH]; intros [|c t] extra Hl;
    cbn in Hl; try lia.
  - destruct extra; reflexivity.
  - reflexivity.
  - cbn [Nat.add strings.replace_fuel].
    destruct (HasPrefix (String c t) old).
    + f_equal. apply IH. rewrite drop_length.
      destruct old as [|o old']; [congruence|]. cbn [String.length]. lia.
    + f_equal. apply IH. lia.
Qed.

(* ================================================================== *)
(** * Facts about the sanitiser                                        *)
(* ================================================================== *)

Lemma allowed_spec (r : rune) :
  regexp.allowed r = true <->
  (97 <= r <= 122 \/ 48 <= r <= 57 \/ r = 45 \/ r = 95).
Proof.
  unfold regexp.allowed.
  destruct (Z.leb_spec 97 r), (Z.leb_spec r 122), (Z.leb_spec 48 r),
    (Z.leb_spec r 57), (Z.eqb_spec r 45), (Z.eqb_spec r 95);
    cbn [andb orb]; split; intro; try discriminate; try reflexivity; lia.
Qed.

Lemma allowed_below_ascii (r : rune) : regexp.allowed r = true -> r < 0x7F.
Proof. rewrite allowed_spec. lia. Qed.

Lemma in_alphabet_cons (c : ascii) (s : string) :
  in_alphabet (String c s) = alphabet_char c && in_alphabet s.
Proof. reflexivity. Qed.

Lemma in_alphabet_app (s t : string) :
  in_alphabet (s ++ t) = in_alphabet s && in_alphabet t.
Proof.
  induction s as [|c s IH]; [reflexivity|].
  cbn [String.append]. rewrite !in_alphabet_cons, IH. apply andb_assoc.
Qed.

Lemma replace_runs_in_alphabet (rs : list (rune * string)) :
  Forall single_byte rs ->
  forall b, in_alphabet (regexp.replace_runs EmptyString b rs) = true.
Proof.
  induction 1 as [|[r bs] rs Hx _ IH]; intro b; [reflexivity|].
  cbn [regexp.replace_runs]. unfold regexp.forbidden.
  destruct (regexp.allowed r) eqn:A; cbn [negb].
  - assert (Hr : fst (r, bs) < 0x80)
      by (pose proof (allowed_below_ascii r A); cbn [fst]; lia).
    destruct (Hx Hr) as (c & Hbs & Hc).
    cbn [fst snd] in Hbs, Hc. subst bs r.
    rewrite in_alphabet_app, IH, andb_true_r.
    unfold str1. rewrite in_alphabet_cons, <- allowed_alphabet_char, A.
    reflexivity.
  - rewrite in_alphabet_app, IH. destruct b; reflexivity.
Qed.

Lemma take_in_alphabet (n : nat) :
  forall s, in_alphabet s = true -> in_alphabet (take n s) = true.
Proof.
  induction n as [|n IH]; intros [|c s] H; try reflexivity.
  cbn [take]. rewrite in_alphabet_cons in *.
  apply andb_prop in H. destruct H as [-> H]. now rewrite IH.
Qed.

Lemma take_length (n : nat) : forall s, (String.length (take n s) <= n)%nat.
Proof.
  induction n as [|n IH]; intros [|c s]; simpl; try lia.
  specialize (IH s). lia.
Qed.

Lemma take_all (n : nat) :
  forall s, (String.length s <= n)%nat -> take n s = s.
Proof.
  induction n as [|n IH]; intros [|c s] H; simpl in *; try reflexivity;
    try lia.
  f_equal. apply IH. lia.
Qed.

(** What membership in the alphabet says about the byte. *)
Lemma alphabet_char_byte (c : ascii) :
  alphabet_char c = true ->
  regexp.allowed (byte_val c) = true /\ byte_val c < 0x7F
  /\ ((65 <=? byte_val c) && (byte_val c <=? 90) = false)
  /\ Ascii.eqb c " " = false.
Proof.
  intro H. rewrite <- allowed_alphabet_char in H.
  pose proof (allowed_below_ascii _ H) as Hlt.
  repeat split; auto.
  - apply allowed_spec in H.
    destruct (Z.leb_spec 65 (byte_val c)), (Z.leb_spec (byte_val c) 90);
      try reflexivity.
    lia.
  - destruct (Ascii.eqb_spec c " "); [|reflexivity].
    subst c. vm_compute in H. discriminate.
Qed.

Section AlphabetFixpoint.

Variable lib : Libs.
Variable s : string.
Hypothesis Hs : in_alphabet s = true.

Lemma alphabet_isASCII : strings.isASCII s = true.
Proof.
  revert Hs. unfold strings.isASCII, in_alphabet.
  induction (list_ascii_of_string s) as [|c l IH]; [reflexivity|].
  cbn [forallb]. intro H. apply andb_prop in H. destruct H as [Hc Hl].
  apply alphabet_char_byte in Hc. destruct Hc as (_ & Hc & _).
  rewrite IH by exact Hl. rewrite andb_true_r.
  apply Z.ltb_lt. unfold utf8.RuneSelf. lia.
Qed.

Lemma Unidecode_alphabet : unidecode.Unidecode lib s = s.
Proof.
  unfold unidecode.Unidecode. rewrite (range_ascii _ alphabet_isASCII).
  revert Hs. induction s as [|c t IH]; [reflexivity|].
  rewrite in_alphabet_cons. intro H. apply andb_prop in H.
  destruct H as [Hc Ht]. apply alphabet_char_byte in Hc.
  destruct Hc as (_ & Hc & _).
  cbn [list_ascii_of_string map flat_map fst].
  unfold unidecode.transliterate at 1.
  destruct (Z.ltb_spec (byte_val c) unicode.MaxASCII) as [_|Hge];
    [|unfold unicode.MaxASCII in Hge; lia].
  cbn [app Join fold_right]. fold (Join (flat_map (fun rb : rune * string =>
    unidecode.transliterate lib (fst rb))
    (map (fun c0 => (byte_val c0, str1 c0)) (list_ascii_of_string t)))).
  rewrite (IH Ht), byte_of_val. reflexivity.
Qed.

Lemma lower_ascii_alphabet : strings.lower_ascii s = s.
Proof.
  revert Hs. induction s as [|c t IH]; [reflexivity|].
  rewrite in_alphabet_cons. intro H. apply andb_prop in H.
  destruct H as [Hc Ht]. apply alphabet_char_byte in Hc.
  destruct Hc as (_ & _ & Hc & _).
  cbn [strings.lower_ascii]. cbv zeta. rewrite Hc, (IH Ht). reflexivity.
Qed.

Lemma ToLower_alphabet : strings.ToLower lib s = s.
Proof.
  unfold strings.ToLower. rewrite alphabet_isASCII.
  apply lower_ascii_alphabet.
Qed.

Lemma replace_space_alphabet (fuel : nat) :
  strings.replace_fuel fuel s " " "-" = s.
Proof.
  revert fuel Hs. induction s as [|c t IH]; intros fuel H.
  - destruct fuel; reflexivity.
  - destruct fuel as [|fuel]; [reflexivity|].
    rewrite in_alphabet_cons in H. apply andb_prop in H.
    destruct H as [Hc Ht]. apply alphabet_char_byte in Hc.
    destruct Hc as (_ & _ & _ & Hc).
    cbn [strings.replace_fuel HasPrefix]. rewrite Hc. cbn [andb].
    now rewrite IH.
Qed.

Lemma ReplaceAll_alphabet : strings.ReplaceAll s " " "-" = s.
Proof. unfold strings.ReplaceAll. cbn. apply replace_space_alphabet. Qed.

Lemma ReplaceAllString_alphabet : regexp.ReplaceAllString s EmptyString = s.
Proof.
  unfold regexp.ReplaceAllString. rewrite (range_ascii _ alphabet_isASCII).
  revert Hs. induction s as [|c t IH]; [reflexivity|].
  rewrite in_alphabet_cons. intro H. apply andb_prop in H.
  destruct H as [Hc Ht]. apply alphabet_char_byte in Hc.
  destruct Hc as (Hc & _).
  cbn [list_ascii_of_string map regexp.replace_runs].
  unfold regexp.forbidden. rewrite Hc. cbn [negb].
  rewrite (IH Ht). reflexivity.
Qed.

(** A name that already is in the output format is left alone. *)
Lemma sanitize_alphabet_fixpoint :
  len s <= 64 -> sanitizeEmojiName lib s = s.
Proof.
  intro Hl. unfold sanitizeEmojiName.
  rewrite Unidecode_alphabet, ToLower_alphabet, ReplaceAll_alphabet,
    ReplaceAllString_alphabet.
  destruct (Z.ltb_spec 64 (len s)); [lia|reflexivity].
Qed.

End AlphabetFixpoint.

(* ================================================================== *)
(** * The sanitiser: claims C3, C4, C5                                 *)
(* ================================================================== *)

(** C3: for every input string, the empty one and those without any
    mappable character included, [sanitizeEmojiName] returns a string of
    at most 64 bytes, all of them in [a-z0-9_-]; the function is total and
    has no error result, and the empty string is among its results. *)
Theorem C3_sanitize_output_valid (lib : Libs) (name : string) :
  len (sanitizeEmojiName lib name) <= 64
  /\ in_alphabet (sanitizeEmojiName lib name) = true
  /\ sanitizeEmojiName lib EmptyString = EmptyString
  /\ sanitizeEmojiName lib "@#!" = EmptyString.
Proof.
  assert (A : in_alphabet (regexp.ReplaceAllString
                (strings.ReplaceAll
                   (strings.ToLower lib (unidecode.Unidecode lib name))
                   " " "-") EmptyString) = true).
  { unfold regexp.ReplaceAllString, utf8.range.
    apply replace_runs_in_alphabet, range_fuel_single_byte. }
  unfold sanitizeEmojiName.
  repeat split; try reflexivity.
  - destruct (Z.ltb_spec 64 (len (regexp.ReplaceAllString
        (strings.ReplaceAll
           (strings.ToLower lib (unidecode.Unidecode lib name)) " " "-")
        EmptyString))) as [Hgt|Hle]; [|exact Hle].
    unfold len. pose proof (take_length 64 (regexp.ReplaceAllString
        (strings.ReplaceAll
           (strings.ToLower lib (unidecode.Unidecode lib name)) " " "-")
        EmptyString)). lia.
  - destruct (64 <? _); [apply take_in_alphabet|]; exact A.
Qed.

(** C4: sanitisation is a function of its argument alone, and on a string
    that already consists of at most 64 bytes of [a-z0-9_-] applying it
    twice gives what applying it once gives. *)
Theorem C4_sanitize_idempotent (lib : Libs) (x : string) :
  in_alphabet x = true ->
  len x <= 64 ->
  sanitizeEmojiName lib (sanitizeEmojiName lib x) = sanitizeEmojiName lib x.
Proof.
  intros Ha Hl.
  rewrite !(sanitize_alphabet_fixpoint lib x Ha Hl).
  reflexivity.
Qed.

Lemma C4_sanitize_idempotent_witness :
  in_alphabet "my-emoji_2" = true /\ len "my-emoji_2" <= 64
  /\ sanitizeEmojiName sample_libs (sanitizeEmojiName sample_libs "my-emoji_2")
     = sanitizeEmojiName sample_libs "my-emoji_2".
Proof.
  split; [reflexivity|].
  split; [vm_compute; discriminate|].
  apply (C4_sanitize_idempotent sample_libs "my-emoji_2");
    [reflexivity|vm_compute; discriminate].
Defined.

(** C5: the three examples.  With a transliteration table that renders
    the Cyrillic letters U+0436, U+0434 and U+0443 as zh, d and u, the name
    "жду" becomes "zhdu"; "My Emoji" becomes "my-emoji" (lower case, dash
    for the space); "emoji@123" becomes "emoji123" (the forbidden byte is
    removed, nothing is put in its place). *)
Theorem C5_sanitize_examples (lib : Libs) :
  unidecode.transliterate lib 0x436 = ["zh"] ->
  unidecode.transliterate lib 0x434 = ["d"] ->
  unidecode.transliterate lib 0x443 = ["u"] ->
  sanitizeEmojiName lib "жду" = "zhdu"
  /\ sanitizeEmojiName lib "My Emoji" = "my-emoji"
  /\ sanitizeEmojiName lib "emoji@123" = "emoji123".
Proof.
  intros Hzh Hd Hu.
  split; [|split; reflexivity].
  assert (U : unidecode.Unidecode lib "жду" = "zhdu").
  { unfold unidecode.Unidecode.
    replace (utf8.range "жду")
      with [(0x436, "ж"); (0x434, "д"); (0x443, "у")]
      by (vm_compute; reflexivity).
    cbn [flat_map fst]. rewrite Hzh, Hd, Hu. reflexivity. }
  unfold sanitizeEmojiName. rewrite U. reflexivity.
Qed.

Lemma C5_sanitize_examples_witness :
  unidecode.transliterate sample_libs 0x436 = ["zh"]
  /\ unidecode.transliterate sample_libs 0x434 = ["d"]
  /\ unidecode.transliterate sample_libs 0x443 = ["u"]
  /\ sanitizeEmojiName sample_libs "жду" = "zhdu"
  /\ sanitizeEmojiName sample_libs "My Emoji" = "my-emoji"
  /\ sanitizeEmojiName sample_libs "emoji@123" = "emoji123".
Proof.
  split; [reflexivity|]. split; [reflexivity|]. split; [reflexivity|].
  apply (C5_sanitize_examples sample_libs); reflexivity.
Defined.

(* ================================================================== *)
(** * One iteration of the loop                                        *)
(* ================================================================== *)

Lemma downloadImage_history (w : World) (url : string) (h : list Event) :
  snd (downloadImage w url h) = EvGet url :: h.
Proof.
  unfold downloadImage, bind, Get, ret.
  destruct (client_Get w h url) as [resp|err]; [|reflexivity].
  destruct (negb (StatusCode resp =? StatusOK)); [reflexivity|].
  destruct (body_err (resp_Body resp)); reflexivity.
Qed.

Lemma uploadToMattermost_history (w : World)
      (server tok name img ct uid : string) (h : list Event) :
  exists posted,
    upload_events posted
    /\ snd (uploadToMattermost w server tok name img ct uid h)
       = (rev posted ++ h)%list.
Proof.
  unfold uploadToMattermost.
  destruct (http_NewRequest w "POST" (server ++ "/api/v4/emoji")).
  - exists []. split; [constructor|reflexivity].
  - match goal with |- context [Do w ?r] => exists [EvDo r] end.
    split; [constructor; reflexivity|].
    unfold bind, Do, ret.
    match goal with |- context [client_Do ?w ?h ?r] =>
      destruct (client_Do w h r) as [resp|err] end; [|reflexivity].
    destruct (negb (StatusCode resp =? StatusOK)
              && negb (StatusCode resp =? StatusCreated)); reflexivity.
Qed.

Lemma bind_run {A B} (m : M A) (k : A -> M B) (h : list Event) :
  bind m k h = k (fst (m h)) (snd (m h)).
Proof. unfold bind. destruct (m h). reflexivity. Qed.

(** Every iteration is one of the three runs of [entry_events]. *)
Lemma loop_body_events (lib : Libs) (w : World) (f : Flags) (uid : string)
      (entry : string * string) (h : list Event) :
  exists evs,
    entry_events lib entry (fst (loop_body lib w f uid entry h)) evs
    /\ snd (loop_body lib w f uid entry h) = (rev evs ++ h)%list.
Proof.
  destruct entry as [originalName url].
  unfold loop_body. rewrite bind_run.
  change (snd (Printf "Processing: [:%s:] -> [:%s:]... "
                 [fmt.AStr originalName;
                  fmt.AStr (sanitizeEmojiName lib originalName)] h))
    with (EvStdout (processing_line lib (originalName, url)) :: h).
  destruct (HasPrefix url "alias:") eqn:Ha.
  - eexists. split; [apply ee_alias; exact Ha|reflexivity].
  - rewrite bind_run, downloadImage_history.
    destruct (fst (downloadImage w url _)) as [[imgData contentType]|err].
    + rewrite bind_run.
      destruct (uploadToMattermost_history w (serverURL f) (token f)
                  (sanitizeEmojiName lib originalName) imgData contentType uid
                  (EvGet url :: EvStdout (processing_line lib (originalName, url)) :: h))
        as (posted & Hp & Hh).
      rewrite Hh.
      destruct (fst (uploadToMattermost w _ _ _ _ _ _ _)) as [err|].
      * destruct (Contains err "400").
        -- exists ([EvStdout (processing_line lib (originalName, url)); EvGet url]
                     ++ posted ++ [EvStdout (report DuplicateSkipped); EvSleep 200])%list.
           split; [apply ee_upload; auto|].
           cbn. rewrite !rev_app_distr. cbn. rewrite <- !app_assoc. reflexivity.
        -- exists ([EvStdout (processing_line lib (originalName, url)); EvGet url]
                     ++ posted ++ [EvStdout (report (UploadFailed err)); EvSleep 200])%list.
           split; [apply ee_upload; auto|].
           cbn. rewrite !rev_app_distr. cbn. rewrite <- !app_assoc. reflexivity.
      * exists ([EvStdout (processing_line lib (originalName, url)); EvGet url]
                  ++ posted ++ [EvStdout (report Uploaded); EvSleep 200])%list.
        split; [apply ee_upload; auto|].
        cbn. rewrite !rev_app_distr. cbn. rewrite <- !app_assoc. reflexivity.
    + eexists. split; [apply ee_fetch_failed; exact Ha|reflexivity].
Qed.

Lemma report_not_processing (o : Outcome) :
  HasPrefix (report o) "Processing: " = false.
Proof. destruct o; reflexivity. Qed.

Lemma upload_events_facts (posted : list Event) :
  upload_events posted ->
  fetches posted = [] /\ sleeps posted = [] /\ processing_lines posted = []
  /\ (List.length (posts posted) <= 1)%nat.
Proof.
  intros [|req Hm]; cbn; [auto|].
  rewrite Hm. cbn. auto.
Qed.

(** What one iteration contributes to the run. *)
Lemma entry_events_facts (lib : Libs) (entry : string * string)
      (o : Outcome) (evs : list Event) :
  entry_events lib entry o evs ->
  fetches evs = (if is_alias entry then [] else [snd entry])
  /\ processing_lines evs = [processing_line lib entry]
  /\ sleeps evs = (if upload_attempted o then [200] else [])
  /\ (List.length (posts evs) <= (if upload_attempted o then 1 else 0))%nat
  /\ (is_alias entry = true <-> o = AliasSkipped)
  /\ (if is_alias entry then true else xorb (upload_attempted o) (fetch_failed o))
     = true.
Proof.
  intros [Ha|err Ha|o' posted Ha Hu Hp]; rewrite Ha.
  - cbn. repeat split; auto.
  - cbn. repeat split; auto; discriminate.
  - destruct (upload_events_facts posted Hp) as (F & S & P & L).
    unfold fetches, processing_lines, sleeps, posts in *.
    rewrite !flat_map_app, ?F, ?S, ?P, Hu. cbn.
    rewrite report_not_processing, length_app, Nat.add_0_r.
    repeat split; auto; try discriminate.
    + intros ->. discriminate.
    + destruct o'; try discriminate; reflexivity.
Qed.

Lemma for_range_events (lib : Libs) (w : World) (f : Flags) (uid : string)
      (emojis : EmojiMap) :
  forall h, exists evs,
    loop_events lib emojis (fst (for_range (loop_body lib w f uid) emojis h)) evs
    /\ snd (for_range (loop_body lib w f uid) emojis h) = (rev evs ++ h)%list.
Proof.
  induction emojis as [|entry rest IH]; intro h.
  - exists []. split; [constructor|reflexivity].
  - cbn [for_range]. rewrite bind_run.
    destruct (loop_body_events lib w f uid entry h) as (evs & He & Hh).
    rewrite Hh. rewrite bind_run.
    destruct (IH (rev evs ++ h)%list) as (evs' & He' & Hh').
    rewrite Hh'. exists (evs ++ evs')%list.
    split; [constructor; assumption|].
    cbn. rewrite rev_app_distr, app_assoc. reflexivity.
Qed.

(** What the loop contributes to the run. *)
Lemma loop_events_facts (lib : Libs) (emojis : EmojiMap)
      (outs : list (string * Outcome)) (evs : list Event) :
  loop_events lib emojis outs evs ->
  map fst outs = map fst emojis
  /\ fetches evs = map snd (filter not_alias emojis)
  /\ processing_lines evs = map (processing_line lib) emojis
  /\ sleeps evs = repeat 200 (count_outcomes upload_attempted outs)
  /\ (List.length (posts evs) <= count_outcomes upload_attempted outs)%nat
  /\ (count_outcomes upload_attempted outs + count_outcomes fetch_failed outs
      = List.length (filter not_alias emojis))%nat.
Proof.
  induction 1 as [|entry rest o os evs evs' He _ IH].
  - cbn. repeat split; auto.
  - destruct IH as (I1 & I2 & I3 & I4 & I5 & I6).
    destruct (entry_events_facts _ _ _ _ He) as (E1 & E2 & E3 & E4 & E5 & E6).
    assert (Hf : filter not_alias (entry :: rest)
                 = if is_alias entry then filter not_alias rest
                   else entry :: filter not_alias rest).
    { cbn [filter]. unfold not_alias at 1.
      destruct (is_alias entry); reflexivity. }
    unfold fetches, processing_lines, sleeps, posts, count_outcomes in *.
    rewrite !flat_map_app, E1, E2, E3, I2, I3, I4, length_app, Hf.
    cbn [map filter snd fst]. rewrite I1.
    destruct (is_alias entry) eqn:Ha.
    + assert (o = AliasSkipped) by (apply E5; reflexivity). subst o.
      cbn [upload_attempted fetch_failed app] in *.
      repeat split; auto; lia.
    + destruct (upload_attempted o) eqn:Hu, (fetch_failed o) eqn:Hf';
        try discriminate; cbn [app map Datatypes.length repeat] in *;
        repeat split; auto; lia.
Qed.

(* ================================================================== *)
(** * The whole run                                                    *)
(* ================================================================== *)

Lemma quiet_app (l1 l2 : list Event) : quiet l1 -> quiet l2 -> quiet (l1 ++ l2).
Proof.
  unfold quiet, fetches, posts, sleeps, processing_lines.
  intros (A1 & A2 & A3 & A4) (B1 & B2 & B3 & B4).
  rewrite !flat_map_app, A1, A2, A3, A4, B1, B2, B3, B4. auto.
Qed.

(** [getUserID] sends at most its one GET request. *)
Lemma getUserID_history (w : World) (server tok : string) (h : list Event) :
  exists sent,
    snd (getUserID w server tok h) = (rev sent ++ h)%list /\ quiet sent.
Proof.
  unfold getUserID.
  destruct (http_NewRequest w "GET" (server ++ "/api/v4/users/me")).
  - exists []. split; [reflexivity|repeat split].
  - match goal with |- context [Do w ?r] => exists [EvDo r] end.
    split; [|repeat split].
    unfold bind, Do, ret.
    match goal with |- context [client_Do ?w ?h ?r] =>
      destruct (client_Do w h r) as [resp|err] end; [|reflexivity].
    destruct (negb (StatusCode resp =? StatusOK)); reflexivity.
Qed.

Lemma flags_set_eqb (f : Flags) :
  flags_set f ->
  String.eqb (serverURL f) EmptyString = false
  /\ String.eqb (token f) EmptyString = false
  /\ String.eqb (jsonFile f) EmptyString = false.
Proof.
  intros (A & B & C). repeat split; apply String.eqb_neq; assumption.
Qed.

(** Once the flags, the file and the manifest are in order, the run is
    decided by the identity request: either it fails and nothing else
    happens, or the loop runs over the whole manifest. *)
Lemma main_run (lib : Libs) (w : World) (f : Flags) (file : string)
      (emojis : EmojiMap) :
  flags_set f ->
  os_ReadFile w (jsonFile f) = Ok file ->
  json_Unmarshal w file = Ok emojis ->
  main lib w f [] =
  let id := getUserID w (serverURL f) (token f) [EvReadFile (jsonFile f)] in
  match fst id with
  | Err err =>
    (UserIDFailed, EvStdout ("❌ Error getting user ID: " ++ err ++ nl) :: snd id)
  | Ok userID =>
    let r := for_range (loop_body lib w f userID) emojis
                       (EvStdout (banner emojis) :: snd id) in
    (Finished (fst r), snd r)
  end.
Proof.
  intros Hf Hr Hj. apply flags_set_eqb in Hf. destruct Hf as (A & B & C).
  unfold main. rewrite A, B, C. rewrite bind_run.
  unfold ReadFile at 1 2. cbn [fst snd]. rewrite Hr, Hj, bind_run.
  cbv zeta.
  destruct (fst (getUserID w (serverURL f) (token f) [EvReadFile (jsonFile f)])).
  - rewrite !bind_run. reflexivity.
  - rewrite bind_run. reflexivity.
Qed.

Lemma main_finished_flags (lib : Libs) (w : World) (f : Flags)
      (outs : list (string * Outcome)) :
  fst (main lib w f []) = Finished outs -> flags_set f.
Proof.
  unfold main, flags_set.
  destruct (String.eqb_spec (serverURL f) EmptyString); [discriminate|].
  destruct (String.eqb_spec (token f) EmptyString); [discriminate|].
  destruct (String.eqb_spec (jsonFile f) EmptyString); [discriminate|].
  auto.
Qed.

(** The trace of a run that reaches the loop. *)
Lemma main_trace_finished (lib : Libs) (w : World) (f : Flags) (file : string)
      (emojis : EmojiMap) (userID : string) :
  flags_set f ->
  os_ReadFile w (jsonFile f) = Ok file ->
  json_Unmarshal w file = Ok emojis ->
  fst (getUserID w (serverURL f) (token f) [EvReadFile (jsonFile f)])
  = Ok userID ->
  exists outs evs sent,
    fst (main lib w f []) = Finished outs
    /\ loop_events lib emojis outs evs
    /\ quiet sent
    /\ trace (main lib w f)
       = ([EvReadFile (jsonFile f)] ++ sent ++ [EvStdout (banner emojis)]
            ++ evs)%list.
Proof.
  intros Hf Hr Hj Hid. unfold trace.
  rewrite (main_run lib w f file emojis Hf Hr Hj). cbv zeta. rewrite Hid.
  destruct (getUserID_history w (serverURL f) (token f)
              [EvReadFile (jsonFile f)]) as (sent & Hs & Hq).
  rewrite Hs.
  destruct (for_range_events lib w f userID emojis
              (EvStdout (banner emojis) :: rev sent ++ [EvReadFile (jsonFile f)])%list)
    as (evs & He & Hh).
  exists (fst (for_range (loop_body lib w f userID) emojis
                 (EvStdout (banner emojis) :: rev sent ++ [EvReadFile (jsonFile f)])%list)),
         evs, sent.
  cbn [fst snd]. rewrite Hh.
  split; [reflexivity|]. split; [exact He|]. split; [exact Hq|].
  rewrite rev_app_distr, rev_involutive. cbn [rev].
  rewrite rev_app_distr, rev_involutive. cbn.
  rewrite <- !app_assoc. reflexivity.
Qed.

(** The trace of a run whose identity request fails. *)
Lemma main_trace_userid_failed (lib : Libs) (w : World) (f : Flags)
      (file : string) (emojis : EmojiMap) (err : string) :
  flags_set f ->
  os_ReadFile w (jsonFile f) = Ok file ->
  json_Unmarshal w file = Ok emojis ->
  fst (getUserID w (serverURL f) (token f) [EvReadFile (jsonFile f)])
  = Err err ->
  fst (main lib w f []) = UserIDFailed /\ quiet (trace (main lib w f)).
Proof.
  intros Hf Hr Hj Hid. unfold trace.
  rewrite (main_run lib w f file emojis Hf Hr Hj). cbv zeta. rewrite Hid.
  destruct (getUserID_history w (serverURL f) (token f)
              [EvReadFile (jsonFile f)]) as (sent & Hs & Hq).
  rewrite Hs. cbn [fst snd]. split; [reflexivity|].
  cbn [rev]. rewrite rev_app_distr, rev_involutive. cbn [rev app].
  change (quiet (([EvReadFile (jsonFile f)] ++ sent)
                   ++ [EvStdout ("❌ Error getting user ID: " ++ err ++ nl)])%list).
  repeat apply quiet_app; auto; repeat split.
Qed.

Lemma append_empty_r (s : string) : s ++ EmptyString = s.
Proof. induction s as [|c s IH]; [reflexivity|]. cbn. now rewrite IH. Qed.

Lemma Sprintf_HTTP (n : Z) :
  fmt.Sprintf "HTTP %d" [fmt.AInt n] = "HTTP " ++ fmt_d n.
Proof. cbn. now rewrite append_empty_r. Qed.

Lemma sample_flags_set : flags_set sample_flags.
Proof. repeat split; discriminate. Qed.

Lemma quiet_trace_prefix (path : string) (sent : list Event) (msg : string)
      (evs : list Event) :
  quiet sent -> HasPrefix msg "Processing: " = false ->
  fetches ([EvReadFile path] ++ sent ++ [EvStdout msg] ++ evs) = fetches evs
  /\ posts ([EvReadFile path] ++ sent ++ [EvStdout msg] ++ evs) = posts evs
  /\ sleeps ([EvReadFile path] ++ sent ++ [EvStdout msg] ++ evs) = sleeps evs
  /\ processing_lines ([EvReadFile path] ++ sent ++ [EvStdout msg] ++ evs)
     = processing_lines evs.
Proof.
  intros (Q1 & Q2 & Q3 & Q4) Hm.
  unfold fetches, posts, sleeps, processing_lines in *.
  rewrite !flat_map_app, Q1, Q2, Q3, Q4. cbn. rewrite Hm. auto.
Qed.

Lemma banner_not_processing (emojis : EmojiMap) :
  HasPrefix (banner emojis) "Processing: " = false.
Proof. reflexivity. Qed.

(* ================================================================== *)
(** * The orchestrator: claims C1, C2, C6, C7, C8, C9                  *)
(* ================================================================== *)

(** The part of the classification that follows the status: a reply 200
    or 201 to the upload is reported as a success, a reply 400 as a
    duplicate. *)
Lemma upload_status_classes (lib : Libs) (w : World) (f : Flags)
      (uid name url : string) (h : list Event)
      (fetched posted : Response) (req : Request) :
  HasPrefix url "alias:" = false ->
  client_Get w (EvStdout (processing_line lib (name, url)) :: h) url
  = Ok fetched ->
  StatusCode fetched = StatusOK ->
  body_err (resp_Body fetched) = None ->
  http_NewRequest w "POST" (serverURL f ++ "/api/v4/emoji") = None ->
  (forall h' r, client_Do w h' r = Ok posted) ->
  (StatusCode posted = 200 \/ StatusCode posted = 201 ->
   fst (loop_body lib w f uid (name, url) h) = Uploaded)
  /\ (StatusCode posted = 400 ->
      fst (loop_body lib w f uid (name, url) h) = DuplicateSkipped).
Proof.
  intros Ha Hg Hs Hb Hn Hd.
  unfold loop_body. rewrite bind_run.
  change (snd (Printf "Processing: [:%s:] -> [:%s:]... "
                 [fmt.AStr name; fmt.AStr (sanitizeEmojiName lib name)] h))
    with (EvStdout (processing_line lib (name, url)) :: h).
  rewrite Ha, bind_run.
  assert (D : downloadImage w url
                (EvStdout (processing_line lib (name, url)) :: h)
              = (Ok (body_data (resp_Body fetched), Header_ContentType fetched),
                 EvGet url :: EvStdout (processing_line lib (name, url)) :: h)).
  { unfold downloadImage, bind, Get, ret. rewrite Hg. cbv beta iota zeta.
    rewrite Hs, Hb. reflexivity. }
  assert (U : forall n img ct h2,
             fst (uploadToMattermost w (serverURL f) (token f) n img ct uid h2)
             = if negb (StatusCode posted =? StatusOK)
                  && negb (StatusCode posted =? StatusCreated)
               then Some (fmt.Sprintf "status %d: %s"
                            [fmt.AInt (StatusCode posted);
                             fmt.AStr (body_data (resp_Body posted))])
               else None).
  { intros. unfold uploadToMattermost. rewrite Hn.
    unfold bind, Do, ret. rewrite Hd. cbv beta iota zeta.
    destruct (negb _ && negb _); reflexivity. }
  rewrite D. cbn [fst snd]. rewrite bind_run, bind_run, U.
  split.
  - intros [E|E]; rewrite E; reflexivity.
  - intros E. rewrite E. reflexivity.
Qed.

(** C1, at the input where the code leaves it: the upload is answered
    with status 500 and a body in which the digits 400 occur.  The error
    text is "status 500: ..." and, because the loop looks for "400"
    anywhere in that text, the entry is reported as a duplicate, not as
    a failed upload. *)
Theorem C1_status_500_reported_as_duplicate :
  let w := sample_world mixed_manifest ok_me ok_png server_error_400 in
  fst (uploadToMattermost w (serverURL sample_flags) (token sample_flags)
         "my-emoji" "PNG" "image/png" "u1" [])
  = Some "status 500: internal error, request 7400"
  /\ fst (loop_body sample_libs w sample_flags "u1"
            ("My Emoji", "https://emoji.example.com/my.png") [])
     = DuplicateSkipped.
Proof. split; vm_compute; reflexivity. Qed.

(** C2 as stated fails: a run over a manifest whose only entry is an
    alias ends that entry as AliasSkipped and never pauses. *)
Lemma C2_counterexample :
  fst (main sample_libs (sample_world alias_manifest ok_me ok_png ok_created)
            sample_flags [])
  = Finished [("shipit", AliasSkipped)]
  /\ sleeps (trace (main sample_libs
                      (sample_world alias_manifest ok_me ok_png ok_created)
                      sample_flags)) = [].
Proof. split; vm_compute; reflexivity. Qed.

(** C2, amended: an iteration that reached the upload (Uploaded,
    DuplicateSkipped, UploadFailed) ends with one pause of 200 ms, its
    last event; an iteration that ends as AliasSkipped or FetchFailed
    contains no pause.  Over the whole loop there are as many pauses, all
    of 200 ms, as entries that reached the upload. *)
Theorem C2_pause_follows_upload_only (lib : Libs) (w : World) (f : Flags)
        (uid : string) :
  (forall entry h,
     let o := fst (loop_body lib w f uid entry h) in
     exists evs,
       snd (loop_body lib w f uid entry h) = (rev evs ++ h)%list
       /\ (if upload_attempted o
           then exists before,
               evs = (before ++ [EvSleep 200])%list /\ sleeps before = []
           else sleeps evs = [])
       /\ (upload_attempted o = false <->
           o = AliasSkipped \/ exists err, o = FetchFailed err))
  /\ (forall emojis h,
        exists evs,
          snd (for_range (loop_body lib w f uid) emojis h) = (rev evs ++ h)%list
          /\ sleeps evs
             = repeat 200 (count_outcomes upload_attempted
                             (fst (for_range (loop_body lib w f uid) emojis h)))).
Proof.
  split.
  - intros entry h o.
    destruct (loop_body_events lib w f uid entry h) as (evs & He & Hh).
    exists evs. split; [exact Hh|]. fold o in He.
    split.
    + destruct He as [Ha|err Ha|o' posted Ha Hu Hp]; try reflexivity.
      rewrite Hu.
      exists ([EvStdout (processing_line lib entry); EvGet (snd entry)]
                ++ posted ++ [EvStdout (report o')])%list.
      split; [rewrite <- !app_assoc; reflexivity|].
      destruct (upload_events_facts posted Hp) as (_ & S & _).
      unfold sleeps in *. rewrite !flat_map_app, S. reflexivity.
    + destruct o; cbn; split; intro H; try discriminate; auto;
        try (destruct H as [H|[err H]]; discriminate).
      right. eexists. reflexivity.
  - intros emojis h.
    destruct (for_range_events lib w f uid emojis h) as (evs & He & Hh).
    exists evs. split; [exact Hh|].
    apply (loop_events_facts lib emojis _ evs He).
Qed.

(** C6: an entry whose source starts with "alias:" ends as AliasSkipped
    after its two lines of output; the iteration contains no download and
    no upload, whatever the name and its sanitised form are. *)
Theorem C6_alias_entry_skipped (lib : Libs) (w : World) (f : Flags)
        (uid name url : string) (h : list Event) :
  HasPrefix url "alias:" = true ->
  loop_body lib w f uid (name, url) h
  = (AliasSkipped,
     EvStdout (report AliasSkipped)
       :: EvStdout (processing_line lib (name, url)) :: h)
  /\ fetches [EvStdout (processing_line lib (name, url));
              EvStdout (report AliasSkipped)] = []
  /\ posts [EvStdout (processing_line lib (name, url));
            EvStdout (report AliasSkipped)] = [].
Proof.
  intro Ha. unfold loop_body. rewrite bind_run, Ha.
  repeat split.
Qed.

Lemma C6_alias_entry_skipped_witness :
  HasPrefix "alias:squirrel" "alias:" = true
  /\ fst (loop_body sample_libs
            (sample_world alias_manifest ok_me ok_png ok_created)
            sample_flags "u1" ("shipit", "alias:squirrel") [])
     = AliasSkipped.
Proof.
  split; [reflexivity|].
  rewrite (proj1 (C6_alias_entry_skipped sample_libs
                    (sample_world alias_manifest ok_me ok_png ok_created)
                    sample_flags "u1" "shipit" "alias:squirrel" [] eq_refl)).
  reflexivity.
Defined.

(** C7: a download succeeds only on status 200; on any other status it
    fails with the error "HTTP <status>", the iteration ends as
    FetchFailed with that text, prints it, and contains no upload.  In
    particular a 404 gives FetchFailed "HTTP 404". *)
Theorem C7_fetch_status (lib : Libs) (w : World) (f : Flags)
        (uid name url : string) (h : list Event) (resp : Response) :
  HasPrefix url "alias:" = false ->
  client_Get w (EvStdout (processing_line lib (name, url)) :: h) url
  = Ok resp ->
  let h1 := EvStdout (processing_line lib (name, url)) :: h in
  let detail := "HTTP " ++ fmt_d (StatusCode resp) in
  (forall img, fst (downloadImage w url h1) = Ok img ->
               StatusCode resp = StatusOK)
  /\ (StatusCode resp <> StatusOK ->
      fst (downloadImage w url h1) = Err detail
      /\ loop_body lib w f uid (name, url) h
         = (FetchFailed detail,
            EvStdout (report (FetchFailed detail)) :: EvGet url :: h1)
      /\ posts [EvStdout (processing_line lib (name, url)); EvGet url;
                EvStdout (report (FetchFailed detail))] = [])
  /\ (StatusCode resp = 404 ->
      fst (loop_body lib w f uid (name, url) h) = FetchFailed "HTTP 404").
Proof.
  intros Ha Hg h1 detail.
  assert (D : StatusCode resp <> StatusOK ->
              downloadImage w url h1 = (Err detail, EvGet url :: h1)).
  { intro Hs. unfold downloadImage, bind, Get, ret. fold h1 in Hg.
    rewrite Hg. cbv beta iota zeta. apply Z.eqb_neq in Hs. rewrite Hs.
    cbn [negb]. rewrite Sprintf_HTTP. reflexivity. }
  assert (L : StatusCode resp <> StatusOK ->
              loop_body lib w f uid (name, url) h
              = (FetchFailed detail,
                 EvStdout (report (FetchFailed detail)) :: EvGet url :: h1)).
  { intro Hs. unfold loop_body. rewrite bind_run, Ha.
    change (snd (Printf "Processing: [:%s:] -> [:%s:]... "
                   [fmt.AStr name; fmt.AStr (sanitizeEmojiName lib name)] h))
      with h1.
    rewrite bind_run, (D Hs). reflexivity. }
  split; [|split].
  - intros img Hok.
    destruct (Z.eq_dec (StatusCode resp) StatusOK) as [E|E]; [exact E|].
    rewrite (D E) in Hok. discriminate.
  - intro Hs. rewrite (D Hs), (L Hs). repeat split.
  - intro Hs.
    assert (Hne : StatusCode resp <> StatusOK)
      by (rewrite Hs; discriminate).
    rewrite (L Hne). unfold detail. rewrite Hs. reflexivity.
Qed.

Lemma C7_fetch_status_witness :
  HasPrefix "https://emoji.example.com/my.png" "alias:" = false
  /\ fst (loop_body sample_libs
            (sample_world mixed_manifest ok_me not_found ok_created)
            sample_flags "u1"
            ("My Emoji", "https://emoji.example.com/my.png") [])
     = FetchFailed "HTTP 404".
Proof.
  split; [reflexivity|].
  apply (C7_fetch_status sample_libs
           (sample_world mixed_manifest ok_me not_found ok_created)
           sample_flags "u1" "My Emoji" "https://emoji.example.com/my.png" []
           {| StatusCode := 404; Header_ContentType := "text/plain";
              resp_Body := {| body_data := "not found"; body_err := None |} |});
    reflexivity.
Defined.



(** C9: once the flags are set, the file is read and the manifest is
    decoded, the run is stopped by nothing but a failing identity request:
    if that request succeeds the run finishes and every entry of the
    manifest is processed, whatever the downloads and uploads of the
    entries answer; if it fails the run ends before the loop, without any
    download, upload or processed entry. *)
Theorem C9_only_preloop_failures_fatal (lib : Libs) (w : World) (f : Flags)
        (file : string) (emojis : EmojiMap) :
  flags_set f ->
  os_ReadFile w (jsonFile f) = Ok file ->
  json_Unmarshal w file = Ok emojis ->
  let t := trace (main lib w f) in
  match fst (getUserID w (serverURL f) (token f) [EvReadFile (jsonFile f)]) with
  | Ok _ =>
    exists outs,
      fst (main lib w f []) = Finished outs
      /\ map fst outs = map fst emojis
      /\ processing_lines t = map (processing_line lib) emojis
  | Err _ =>
    fst (main lib w f []) = UserIDFailed
    /\ fetches t = [] /\ posts t = [] /\ processing_lines t = []
  end.
Proof.
  intros Hf Hr Hj t.
  destruct (fst (getUserID w (serverURL f) (token f) [EvReadFile (jsonFile f)]))
    as [userID|err] eqn:Hid.
  - destruct (main_trace_finished lib w f file emojis userID Hf Hr Hj Hid)
      as (outs & evs & sent & Hm & He & Hq & Ht).
    destruct (loop_events_facts lib emojis outs evs He) as (L1 & _ & L3 & _).
    destruct (quiet_trace_prefix (jsonFile f) sent (banner emojis) evs Hq
                (banner_not_processing emojis)) as (_ & _ & _ & Q4).
    exists outs. subst t. rewrite Ht, Q4. auto.
  - destruct (main_trace_userid_failed lib w f file emojis err Hf Hr Hj Hid)
      as (Hm & Q1 & Q2 & _ & Q4).
    auto.
Qed.

Lemma C9_only_preloop_failures_fatal_witness :
  let failing := sample_world mixed_manifest unauthorized ok_png ok_created in
  let stubborn := sample_world mixed_manifest ok_me not_found ok_created in
  flags_set sample_flags
  /\ (fst (main sample_libs failing sample_flags []) = UserIDFailed
      /\ fetches (trace (main sample_libs failing sample_flags)) = []
      /\ posts (trace (main sample_libs failing sample_flags)) = []
      /\ processing_lines (trace (main sample_libs failing sample_flags)) = [])
  /\ (exists outs,
        fst (main sample_libs stubborn sample_flags []) = Finished outs
        /\ map fst outs = map fst mixed_manifest
        /\ processing_lines (trace (main sample_libs stubborn sample_flags))
           = map (processing_line sample_libs) mixed_manifest).
Proof.
  intros failing stubborn.
  split; [exact sample_flags_set|].
  split.
  - exact (C9_only_preloop_failures_fatal sample_libs failing sample_flags
             "{}" mixed_manifest sample_flags_set eq_refl eq_refl).
  - exact (C9_only_preloop_failures_fatal sample_libs stubborn sample_flags
             "{}" mixed_manifest sample_flags_set eq_refl eq_refl).
Defined.

(* ================================================================== *)
(** * The metadata field: claim C10                                    *)
(* ================================================================== *)

Lemma emojiMeta_verbatim (name creatorID : string) :
  emojiMeta name creatorID
  = "{" ++ dq ++ "name" ++ dq ++ ":" ++ dq ++ name ++ dq ++ ","
        ++ dq ++ "creator_id" ++ dq ++ ":" ++ dq ++ creatorID ++ dq ++ "}".
Proof. reflexivity. Qed.

Lemma alphabet_char_plain (c : ascii) :
  alphabet_char c = true -> JSON.plain_char c = true.
Proof.
  destruct c as [[] [] [] [] [] [] [] []]; vm_compute; intro H;
    first [reflexivity | discriminate H].
Qed.

Lemma in_alphabet_plain (s : string) :
  in_alphabet s = true -> json_plain s = true.
Proof.
  unfold in_alphabet, json_plain.
  induction (list_ascii_of_string s) as [|c l IH]; [reflexivity|].
  cbn [forallb]. intro H. apply andb_prop in H. destruct H as [Hc Hl].
  now rewrite (alphabet_char_plain c Hc), IH.
Qed.

Lemma plain_char_scan (c : ascii) :
  JSON.plain_char c = true ->
  Ascii.eqb c JSON.quote_char = false
  /\ Ascii.eqb c JSON.backslash_char = false
  /\ (byte_val c <? 0x20) = false.
Proof.
  unfold JSON.plain_char. intro H.
  apply andb_prop in H. destruct H as [H H3].
  apply andb_prop in H. destruct H as [H1 H2].
  apply negb_true_iff in H1, H2, H3. auto.
Qed.

(** A literal without escapes is read back as it stands. *)
Lemma scan_string_plain (p rest : string) :
  json_plain p = true ->
  JSON.scan_string (p ++ String JSON.quote_char rest) = Some (p, rest).
Proof.
  unfold JSON.scan_string.
  assert (H : json_plain p = true ->
              JSON.scan_items (p ++ String JSON.quote_char rest)
              = Some (map JSON.Lit (list_ascii_of_string p), rest)
              /\ JSON.decode_items (map JSON.Lit (list_ascii_of_string p)) = p).
  { unfold json_plain. induction p as [|c p IH]; intro Hp.
    - split; reflexivity.
    - cbn [list_ascii_of_string forallb] in Hp.
      apply andb_prop in Hp. destruct Hp as [Hc Hp].
      destruct (plain_char_scan c Hc) as (Q & B & L).
      destruct (IH Hp) as [I1 I2].
      cbn [String.append JSON.scan_items]. rewrite Q, B, L, I1.
      cbn [JSON.push list_ascii_of_string map JSON.decode_items].
      rewrite I2. split; reflexivity. }
  intro Hp. destruct (H Hp) as [-> ->]. reflexivity.
Qed.

Lemma meta_text (name creatorID : string) :
  emojiMeta name creatorID
  = String "{"
      (member_text "name"
         (name ++ String JSON.quote_char
            (String ","
               (member_text "creator_id"
                  (creatorID ++ String JSON.quote_char "}"))))).
Proof. reflexivity. Qed.

Lemma parse_open_brace (fuel : nat) (k rest : string) :
  JSON.parse (S fuel) JSON.MValue (String "{" (member_text k rest))
  = JSON.parse fuel JSON.MMembers (member_text k rest).
Proof. reflexivity. Qed.

Lemma parse_member (fuel : nat) (k s : string) :
  json_plain k = true ->
  JSON.parse (S (S fuel)) JSON.MMembers (member_text k s)
  = match JSON.scan_string s with
    | None => None
    | Some (d, r) => member_tail (S fuel) k (JSON.JString d) r
    end.
Proof.
  intro Hk. unfold member_text.
  cbn [JSON.parse].
  change (JSON.skip_ws (String JSON.quote_char ?x))
    with (String JSON.quote_char x).
  change (Ascii.eqb JSON.quote_char JSON.quote_char) with true.
  cbv iota.
  rewrite (scan_string_plain k _ Hk).
  change (JSON.skip_ws (String ":" ?x)) with (String ":" x).
  change (Ascii.eqb ":" ":") with true. cbv iota.
  change (JSON.skip_ws (String JSON.quote_char ?x))
    with (String JSON.quote_char x).
  change (Ascii.eqb JSON.quote_char "[") with false.
  change (Ascii.eqb JSON.quote_char "{") with false.
  change (Ascii.eqb JSON.quote_char JSON.quote_char) with true.
  cbv iota.
  destruct (JSON.scan_string s) as [[d r]|]; reflexivity.
Qed.

(** The reader of the whole field, for a name without escapes: all that
    is left to decide is how the identifier reads as a string literal. *)
Lemma parse_meta (fuel : nat) (name creatorID : string) :
  json_plain name = true ->
  JSON.parse (4 + fuel) JSON.MValue (emojiMeta name creatorID)
  = match JSON.scan_string (creatorID ++ String JSON.quote_char "}") with
    | None => None
    | Some (d, r) =>
      match member_tail (S fuel) "creator_id" (JSON.JString d) r with
      | Some (JSON.JObject ms, r'') =>
        Some (JSON.JObject (("name", JSON.JString name) :: ms), r'')
      | _ => None
      end
    end.
Proof.
  intro Hn. rewrite meta_text.
  change (4 + fuel)%nat with (S (S (S (S fuel)))).
  rewrite parse_open_brace, (parse_member _ "name" _ eq_refl).
  rewrite (scan_string_plain name _ Hn).
  unfold member_tail at 1.
  change (JSON.skip_ws (String "," ?x)) with (String "," x).
  change (Ascii.eqb "," ",") with true. cbv iota.
  rewrite (parse_member _ "creator_id" _ eq_refl).
  destruct (JSON.scan_string (creatorID ++ String JSON.quote_char "}"))
    as [[d r]|]; reflexivity.
Qed.

Lemma decode_fuel (name creatorID : string) :
  exists fuel,
    JSON.decode (emojiMeta name creatorID)
    = match JSON.parse (4 + fuel) JSON.MValue (emojiMeta name creatorID) with
      | Some (v, r) =>
        match JSON.skip_ws r with
        | EmptyString => Some v
        | String _ _ => None
        end
      | None => None
      end.
Proof.
  unfold JSON.decode. rewrite meta_text. unfold member_text.
  cbn [String.length String.append].
  match goal with
  | |- context [JSON.parse (S (S ?a) + S (S ?a) + 2)%nat] =>
    exists (a + a + 2)%nat;
    replace (S (S a) + S (S a) + 2)%nat with (4 + (a + a + 2))%nat by lia
  end.
  reflexivity.
Qed.

(** With a name and an identifier free of quotes, backslashes and control
    bytes the field is the JSON text of the intended object. *)
Lemma decode_meta_plain (name creatorID : string) :
  json_plain name = true -> json_plain creatorID = true ->
  JSON.decode (emojiMeta name creatorID) = Some (meta_object name creatorID).
Proof.
  intros Hn Hi. destruct (decode_fuel name creatorID) as [fuel ->].
  rewrite (parse_meta fuel name creatorID Hn).
  rewrite (scan_string_plain creatorID _ Hi). reflexivity.
Qed.

Lemma string_length_app (s t : string) :
  String.length (s ++ t) = (String.length s + String.length t)%nat.
Proof. induction s as [|c s IH]; cbn; [reflexivity|now rewrite IH]. Qed.

Lemma push_some (i : JSON.item) (o : option (list JSON.item * string))
      (l : list JSON.item) (r : string) :
  JSON.push i o = Some (l, r) ->
  exists l', o = Some (l', r) /\ l = i :: l'.
Proof.
  destruct o as [[l' r']|]; cbn; intro E; [|discriminate].
  injection E as <- <-. eauto.
Qed.

Ltac len_arith :=
  unfold sum_of in *;
  cbn [fold_right raw_len escapes String.length List.length
       JSON.decode_items] in *;
  lia.

(** The reader accounts for every byte it consumes. *)
Lemma scan_items_length (n : nat) :
  forall s l r, (String.length s <= n)%nat ->
  JSON.scan_items s = Some (l, r) ->
  String.length s = (sum_of raw_len l + 1 + String.length r)%nat.
Proof.
  induction n as [|n IH]; intros s l r Hn.
  - destruct s; [discriminate|cbn in Hn; lia].
  - destruct s as [|c s1]; [discriminate|]. cbn [JSON.scan_items].
    cbn [String.length] in Hn.
    destruct (Ascii.eqb c JSON.quote_char).
    { intro E. injection E as <- <-. len_arith. }
    destruct (Ascii.eqb c JSON.backslash_char).
    + destruct s1 as [|e s2]; [discriminate|].
      destruct (Ascii.eqb e "u").
      * destruct s2 as [|h1 [|h2 [|h3 [|h4 s6]]]]; try discriminate.
        destruct (JSON.hex4 h1 h2 h3 h4); [|discriminate].
        intro E. apply push_some in E. destruct E as (l' & E & ->).
        apply IH in E; [|cbn in Hn |- *; lia].
        len_arith.
      * destruct (JSON.unescape e); [|discriminate].
        intro E. apply push_some in E. destruct E as (l' & E & ->).
        apply IH in E; [|cbn in Hn |- *; lia].
        len_arith.
    + destruct (byte_val c <? 32); [discriminate|].
      intro E. apply push_some in E. destruct E as (l' & E & ->).
      apply IH in E; [|lia].
      len_arith.
Qed.

Lemma EncodeRune_length (r : rune) : (String.length (utf8.EncodeRune r) <= 4)%nat.
Proof.
  unfold utf8.EncodeRune.
  repeat match goal with
         | |- context [if ?b then _ else _] => destruct b
         end; cbn; lia.
Qed.

(** Every escape denotes fewer bytes than it takes to write. *)
Lemma decode_items_length (n : nat) :
  forall l, (List.length l <= n)%nat ->
  (String.length (JSON.decode_items l) + sum_of escapes l
   <= sum_of raw_len l)%nat.
Proof.
  induction n as [|n IH]; intros l Hn.
  - destruct l; [len_arith|cbn in Hn; lia].
  - destruct l as [|[c|c|hi] l']; cbn [List.length] in Hn.
    + len_arith.
    + specialize (IH l' ltac:(lia)). len_arith.
    + specialize (IH l' ltac:(lia)). len_arith.
    + cbn [JSON.decode_items].
      pose proof (IH l' ltac:(lia)) as IH1.
      assert (D : (String.length (utf8.EncodeRune hi ++ JSON.decode_items l')
                   + sum_of escapes (JSON.Unit hi :: l')
                   <= sum_of raw_len (JSON.Unit hi :: l'))%nat).
      { rewrite string_length_app.
        pose proof (EncodeRune_length hi). len_arith. }
      destruct l' as [|[c|c|lo] l'']; try exact D.
      destruct (JSON.is_high hi && JSON.is_low lo); [|exact D].
      cbn [List.length] in Hn.
      pose proof (IH l'' ltac:(lia)) as IH2.
      rewrite string_length_app.
      pose proof (EncodeRune_length
                    (65536 + (hi - 55296) * 1024 + (lo - 56320))).
      len_arith.
Qed.

Lemma plain_char_of_scan (c : ascii) :
  Ascii.eqb c JSON.quote_char = false ->
  Ascii.eqb c JSON.backslash_char = false ->
  (byte_val c <? 32) = false ->
  JSON.plain_char c = true.
Proof. unfold JSON.plain_char. now intros -> -> ->. Qed.

(** A literal read without escapes denotes its own, plain, source text. *)
Lemma scan_items_no_escape (s : string) :
  forall l r, JSON.scan_items s = Some (l, r) ->
  sum_of escapes l = 0%nat ->
  json_plain (JSON.decode_items l) = true.
Proof.
  induction s as [|c s1 IH]; intros l r; [discriminate|].
  cbn [JSON.scan_items].
  destruct (Ascii.eqb c JSON.quote_char) eqn:Q.
  { intro E. injection E as <- <-. reflexivity. }
  destruct (Ascii.eqb c JSON.backslash_char) eqn:B.
  - destruct s1 as [|e s2]; [discriminate|].
    destruct (Ascii.eqb e "u").
    + destruct s2 as [|h1 [|h2 [|h3 [|h4 s6]]]]; try discriminate.
      destruct (JSON.hex4 h1 h2 h3 h4); [|discriminate].
      intro E. apply push_some in E. destruct E as (l' & _ & ->).
      cbn. discriminate.
    + destruct (JSON.unescape e); [|discriminate].
      intro E. apply push_some in E. destruct E as (l' & _ & ->).
      cbn. discriminate.
  - destruct (byte_val c <? 32) eqn:L; [discriminate|].
    intro E. apply push_some in E. destruct E as (l' & E & ->).
    cbn [sum_of fold_right escapes Nat.add JSON.decode_items].
    intro Z0. unfold json_plain. cbn [list_ascii_of_string forallb].
    rewrite (plain_char_of_scan c Q B L). cbn [andb].
    apply (IH l' r E Z0).
Qed.

Lemma parse_members_nonempty (fuel : nat) (s : string)
      (ms : list (string * JSON.value)) (r : string) :
  JSON.parse fuel JSON.MMembers s = Some (JSON.JObject ms, r) -> ms <> [].
Proof.
  destruct fuel as [|fuel]; [discriminate|]. cbn [JSON.parse].
  repeat match goal with
         | |- context [match ?x with _ => _ end] =>
           lazymatch x with
           | context [match _ with _ => _ end] => fail
           | _ => destruct x
           end
         end;
    intro E; try discriminate; injection E as <- _; discriminate.
Qed.

(** If the field reads as the intended object, the identifier contains
    no quote, no backslash and no control byte. *)
Lemma decode_meta_inv (name creatorID : string) :
  json_plain name = true ->
  JSON.decode (emojiMeta name creatorID) = Some (meta_object name creatorID) ->
  json_plain creatorID = true.
Proof.
  intros Hn. destruct (decode_fuel name creatorID) as [fuel ->].
  rewrite (parse_meta fuel name creatorID Hn).
  unfold JSON.scan_string.
  destruct (JSON.scan_items (creatorID ++ String JSON.quote_char "}"))
    as [[l r]|] eqn:Hscan; [|discriminate].
  assert (T : forall ms r'',
             member_tail (S fuel) "creator_id"
                         (JSON.JString (JSON.decode_items l)) r
             = Some (JSON.JObject ms, r'') ->
             ms = [("creator_id", JSON.JString creatorID)] ->
             JSON.decode_items l = creatorID /\ r <> EmptyString).
  { intros ms r''. unfold member_tail.
    destruct (JSON.skip_ws r) as [|c r'] eqn:Hr; [discriminate|].
    assert (r <> EmptyString) by (intros ->; discriminate).
    destruct (Ascii.eqb c ",").
    - destruct (JSON.parse (S fuel) JSON.MMembers r') as [[[] r3]|] eqn:Hp;
        try discriminate.
      intros E Hms. injection E as <- _. injection Hms as _ Hm.
      apply parse_members_nonempty in Hp. congruence.
    - destruct (Ascii.eqb c "}"); [|discriminate].
      intros E Hms. injection E as <- _. injection Hms as Hd. auto. }
  destruct (member_tail (S fuel) "creator_id"
              (JSON.JString (JSON.decode_items l)) r)
    as [[[] r'']|]; try discriminate.
  destruct (JSON.skip_ws r''); [|discriminate].
  intro E. unfold meta_object in E. injection E as E.
  destruct (T _ _ eq_refl E) as [Hd Hr].
  pose proof (scan_items_length _ _ l r (Nat.le_refl _) Hscan) as HL.
  pose proof (decode_items_length _ l (Nat.le_refl _)) as HD.
  rewrite string_length_app in HL. cbn [String.length] in HL.
  rewrite Hd in HD.
  assert (String.length r <> 0)%nat by (destruct r; [congruence|discriminate]).
  assert (Z0 : sum_of escapes l = 0%nat) by lia.
  rewrite <- Hd. apply (scan_items_no_escape _ l r Hscan Z0).
Qed.

(** The request that [uploadToMattermost] sends carries the metadata text
    as its first part. *)
Lemma upload_request_parts (w : World)
      (server tok name img ct uid : string) (h : list Event) :
  http_NewRequest w "POST" (server ++ "/api/v4/emoji") = None ->
  exists req image,
    snd (uploadToMattermost w server tok name img ct uid h) = EvDo req :: h
    /\ req_Method req = "POST"
    /\ req_parts req
       = [{| part_name := "emoji"; part_filename := None;
             part_data := emojiMeta name uid |}; image].
Proof.
  intro Hn. unfold uploadToMattermost. rewrite Hn.
  match goal with |- context [Do w ?r] => exists r end.
  eexists. split; [|split; reflexivity].
  unfold bind, Do, ret.
  match goal with |- context [client_Do ?w ?h ?r] =>
    destruct (client_Do w h r) as [resp|err] end; [|reflexivity].
  destruct (negb (StatusCode resp =? StatusOK)
            && negb (StatusCode resp =? StatusCreated)); reflexivity.
Qed.

(** C10 as stated fails: the identifier made of two backslashes contains
    a backslash, yet the field built from it is well-formed JSON; it
    denotes an object whose creator_id is a single backslash. *)
Lemma C10_counterexample :
  json_plain "\\" = false
  /\ JSON.well_formed (emojiMeta "party" "\\") = true
  /\ JSON.decode (emojiMeta "party" "\\") = Some (meta_object "party" "\").
Proof. repeat split; vm_compute; reflexivity. Qed.

(** C10, amended: the metadata part of every upload is the format with
    name and identifier copied in verbatim, nothing escaped.  For a name
    over [a-z0-9_-] this text is well-formed JSON denoting exactly that
    name and identifier if and only if the identifier contains no double
    quote, no backslash and no control byte; an identifier with a double
    quote or a backslash is therefore never denoted by the part, which
    is either malformed (as for the identifier made of one double quote)
    or denotes something else. *)
Theorem C10_metadata_verbatim (name creatorID : string) :
  emojiMeta name creatorID
  = "{" ++ dq ++ "name" ++ dq ++ ":" ++ dq ++ name ++ dq ++ ","
        ++ dq ++ "creator_id" ++ dq ++ ":" ++ dq ++ creatorID ++ dq ++ "}"
  /\ (forall w server tok img ct h,
        http_NewRequest w "POST" (server ++ "/api/v4/emoji") = None ->
        exists req image,
          snd (uploadToMattermost w server tok name img ct creatorID h)
          = EvDo req :: h
          /\ req_parts req
             = [{| part_name := "emoji"; part_filename := None;
                   part_data := emojiMeta name creatorID |}; image])
  /\ (in_alphabet name = true ->
      (json_plain creatorID = true <->
       JSON.decode (emojiMeta name creatorID)
       = Some (meta_object name creatorID))
      /\ (json_plain creatorID = true ->
          JSON.well_formed (emojiMeta name creatorID) = true)
      /\ JSON.well_formed (emojiMeta name dq) = false).
Proof.
  split; [apply emojiMeta_verbatim|].
  split.
  { intros w server tok img ct h Hn.
    destruct (upload_request_parts w server tok name img ct creatorID h Hn)
      as (req & image & H1 & _ & H3).
    exists req, image. auto. }
  intro Ha. apply in_alphabet_plain in Ha.
  split; [split|split].
  - apply decode_meta_plain; assumption.
  - apply decode_meta_inv; assumption.
  - intro Hi. unfold JSON.well_formed.
    now rewrite (decode_meta_plain name creatorID Ha Hi).
  - unfold JSON.well_formed.
    destruct (decode_fuel name dq) as [fuel ->].
    rewrite (parse_meta fuel name dq Ha). reflexivity.
Qed.

Lemma C10_metadata_verbatim_witness :
  in_alphabet "party" = true
  /\ json_plain "u1" = true
  /\ JSON.decode (emojiMeta "party" "u1") = Some (meta_object "party" "u1")
  /\ JSON.well_formed (emojiMeta "party" dq) = false.
Proof.
  split; [reflexivity|]. split; [reflexivity|].
  destruct (C10_metadata_verbatim "party" "u1") as (_ & _ & H).
  destruct (H eq_refl) as (Hiff & _ & Hq).
  split; [apply Hiff; reflexivity|exact Hq].
Defined.

(* ================================================================== *)
(** * Further properties of the sanitiser                              *)
(* ================================================================== *)

Lemma byte_val_of (z : Z) : 0 <= z < 256 -> byte_val (byte_of z) = z.
Proof.
  intro H. unfold byte_val, byte_of.
  rewrite N_ascii_embedding by lia. lia.
Qed.

Lemma sanitize_in_format (lib : Libs) (name : string) :
  in_alphabet (sanitizeEmojiName lib name) = true
  /\ len (sanitizeEmojiName lib name) <= 64.
Proof.
  unfold sanitizeEmojiName.
  set (t := regexp.ReplaceAllString _ _).
  assert (A : in_alphabet t = true).
  { subst t. unfold regexp.ReplaceAllString, utf8.range.
    apply replace_runs_in_alphabet, range_fuel_single_byte. }
  destruct (Z.ltb_spec 64 (len t)) as [Hgt|Hle].
  - split; [now apply take_in_alphabet|].
    unfold len. pose proof (take_length 64 t). lia.
  - auto.
Qed.

(** X1: sanitising is idempotent on every input, not only on names that
    are in the output format already. *)
Theorem sanitize_idempotent_everywhere (lib : Libs) (x : string) :
  sanitizeEmojiName lib (sanitizeEmojiName lib x) = sanitizeEmojiName lib x.
Proof.
  destruct (sanitize_in_format lib x) as [Ha Hl].
  apply sanitize_alphabet_fixpoint; assumption.
Qed.

(** X2: a name that consists of bytes of [a-z0-9_-] only is cut to its
    first 64 bytes and otherwise left as it is. *)
Theorem sanitize_alphabet_truncates (lib : Libs) (s : string) :
  in_alphabet s = true ->
  sanitizeEmojiName lib s = take 64 s.
Proof.
  intro Hs. unfold sanitizeEmojiName.
  rewrite (Unidecode_alphabet lib s Hs), (ToLower_alphabet lib s Hs),
    (ReplaceAll_alphabet s Hs), (ReplaceAllString_alphabet s Hs).
  destruct (Z.ltb_spec 64 (len s)) as [_|Hle]; [reflexivity|].
  symmetry. apply take_all. unfold len in Hle. lia.
Qed.

Lemma sanitize_alphabet_truncates_witness :
  in_alphabet "a234567890b234567890c234567890d234567890e234567890f234567890g234567890" = true
  /\ sanitizeEmojiName sample_libs
       "a234567890b234567890c234567890d234567890e234567890f234567890g234567890"
     = "a234567890b234567890c234567890d234567890e234567890f234567890g234".
Proof.
  split; [reflexivity|].
  rewrite (sanitize_alphabet_truncates sample_libs
    "a234567890b234567890c234567890d234567890e234567890f234567890g234567890"
    eq_refl).
  reflexivity.
Defined.

Lemma below_del_isASCII (s : string) :
  below_del s = true -> strings.isASCII s = true.
Proof.
  unfold below_del, strings.isASCII.
  induction (list_ascii_of_string s) as [|c l IH]; [reflexivity|].
  cbn [forallb]. intro H. apply andb_prop in H. destruct H as [Hc Hl].
  rewrite (IH Hl), andb_true_r. apply Z.ltb_lt in Hc. apply Z.ltb_lt.
  unfold utf8.RuneSelf. lia.
Qed.

Lemma Unidecode_below_del (lib : Libs) (s : string) :
  below_del s = true -> unidecode.Unidecode lib s = s.
Proof.
  intro Hs. unfold unidecode.Unidecode.
  rewrite (range_ascii _ (below_del_isASCII s Hs)).
  revert Hs. unfold below_del. induction s as [|c t IH]; [reflexivity|].
  cbn [list_ascii_of_string forallb]. intro H. apply andb_prop in H.
  destruct H as [Hc Ht].
  cbn [map flat_map fst]. unfold unidecode.transliterate at 1.
  unfold unicode.MaxASCII. rewrite Hc.
  cbn [app Join fold_right].
  fold (Join (flat_map (fun rb : rune * string =>
    unidecode.transliterate lib (fst rb))
    (map (fun c0 => (byte_val c0, str1 c0)) (list_ascii_of_string t)))).
  rewrite (IH Ht), byte_of_val. reflexivity.
Qed.

Lemma replace_space_bytes (s : string) :
  forall fuel, (String.length s <= fuel)%nat ->
  strings.replace_fuel fuel s " " "-"
  = map_bytes (fun c => if Ascii.eqb c " " then "-"%char else c) s.
Proof.
  induction s as [|c t IH]; intros fuel Hl.
  - destruct fuel; reflexivity.
  - destruct fuel as [|fuel]; [cbn in Hl; lia|].
    cbn [strings.replace_fuel HasPrefix map_bytes].
    cbn [String.length] in Hl.
    assert (P : HasPrefix t EmptyString = true) by (destruct t; reflexivity).
    rewrite P.
    destruct (Ascii.eqb c " "); cbn [andb].
    + cbn [String.length drop String.append]. f_equal. apply IH. lia.
    + f_equal. apply IH. lia.
Qed.

Lemma lower_then_dash (s : string) :
  map_bytes (fun c => if Ascii.eqb c " " then "-"%char else c)
            (strings.lower_ascii s)
  = map_bytes fold_byte s.
Proof.
  induction s as [|c t IH]; [reflexivity|].
  cbn [strings.lower_ascii map_bytes]. cbv zeta. rewrite IH. f_equal.
  unfold fold_byte. change (97 - 65) with 32.
  pose proof (byte_val_range c) as Hc.
  destruct ((65 <=? byte_val c) && (byte_val c <=? 90)) eqn:U; [|reflexivity].
  apply andb_prop in U. destruct U as [U1 U2].
  apply Z.leb_le in U1, U2.
  destruct (Ascii.eqb_spec (byte_of (byte_val c + 32)) " ") as [E|E];
    [|reflexivity].
  exfalso. apply (f_equal byte_val) in E.
  rewrite byte_val_of in E by lia. change (byte_val " ") with 32 in E. lia.
Qed.

Lemma fold_byte_ascii (s : string) :
  strings.isASCII s = true -> strings.isASCII (map_bytes fold_byte s) = true.
Proof.
  unfold strings.isASCII. induction s as [|c t IH]; [reflexivity|].
  cbn [list_ascii_of_string forallb map_bytes]. intro H.
  apply andb_prop in H. destruct H as [Hc Ht].
  rewrite (IH Ht), andb_true_r. apply Z.ltb_lt in Hc. apply Z.ltb_lt.
  unfold fold_byte, utf8.RuneSelf in *.
  destruct ((65 <=? byte_val c) && (byte_val c <=? 90)) eqn:U.
  - apply andb_prop in U. destruct U as [U1 U2]. apply Z.leb_le in U1, U2.
    rewrite byte_val_of; lia.
  - destruct (Ascii.eqb c " "); [vm_compute; reflexivity|exact Hc].
Qed.

Lemma regexp_filter_ascii (s : string) :
  strings.isASCII s = true ->
  regexp.ReplaceAllString s EmptyString = filter_bytes alphabet_char s.
Proof.
  intro Hs. unfold regexp.ReplaceAllString. rewrite (range_ascii _ Hs).
  clear Hs. generalize false.
  induction s as [|c t IH]; intro b; [reflexivity|].
  cbn [list_ascii_of_string map regexp.replace_runs filter_bytes].
  unfold regexp.forbidden. rewrite allowed_alphabet_char.
  destruct (alphabet_char c); cbn [negb].
  - rewrite IH. reflexivity.
  - rewrite IH. destruct b; reflexivity.
Qed.

Lemma filter_bytes_length (p : ascii -> bool) (s : string) :
  (String.length (filter_bytes p s) <= String.length s)%nat.
Proof.
  induction s as [|c t IH]; cbn; [lia|]. destruct (p c); cbn; lia.
Qed.

Lemma map_bytes_length (f : ascii -> ascii) (s : string) :
  String.length (map_bytes f s) = String.length s.
Proof. induction s as [|c t IH]; cbn; [reflexivity|now rewrite IH]. Qed.

(** X3: on a name of ASCII bytes below 0x7F the sanitiser works byte by
    byte, whatever the transliteration table holds: capitals become small
    letters, spaces become dashes, every byte outside [a-z0-9_-] is
    dropped, and the first 64 bytes of what is left are the result, which
    is therefore never longer than the name. *)
Theorem sanitize_ascii_bytewise (lib : Libs) (s : string) :
  below_del s = true ->
  sanitizeEmojiName lib s
  = take 64 (filter_bytes alphabet_char (map_bytes fold_byte s))
  /\ len (sanitizeEmojiName lib s) <= len s.
Proof.
  intro Hs.
  assert (E : sanitizeEmojiName lib s
              = take 64 (filter_bytes alphabet_char (map_bytes fold_byte s))).
  { unfold sanitizeEmojiName.
    rewrite (Unidecode_below_del lib s Hs).
    unfold strings.ToLower. rewrite (below_del_isASCII s Hs).
    unfold strings.ReplaceAll.
    change (String.eqb " " "-") with false. cbv iota.
    rewrite replace_space_bytes by apply Nat.le_refl.
    rewrite lower_then_dash.
    rewrite regexp_filter_ascii
      by (apply fold_byte_ascii, below_del_isASCII, Hs).
    set (t := filter_bytes alphabet_char (map_bytes fold_byte s)).
    destruct (Z.ltb_spec 64 (len t)) as [_|Hle]; [reflexivity|].
    symmetry. apply take_all. unfold len in Hle. lia. }
  split; [exact E|].
  rewrite E. unfold len.
  pose proof (take_length 64 (filter_bytes alphabet_char (map_bytes fold_byte s))).
  assert (forall n t, (String.length (take n t) <= String.length t)%nat) as TL.
  { induction n as [|n IH]; intros [|c t]; cbn; try lia.
    specialize (IH t). lia. }
  pose proof (TL 64%nat (filter_bytes alphabet_char (map_bytes fold_byte s))).
  pose proof (filter_bytes_length alphabet_char (map_bytes fold_byte s)).
  rewrite map_bytes_length in *. lia.
Qed.

Lemma sanitize_ascii_bytewise_witness :
  below_del "Party Parrot (v2)!" = true
  /\ sanitizeEmojiName sample_libs "Party Parrot (v2)!" = "party-parrot-v2".
Proof.
  split; [reflexivity|].
  rewrite (proj1 (sanitize_ascii_bytewise sample_libs "Party Parrot (v2)!"
                    eq_refl)).
  reflexivity.
Defined.

(* ================================================================== *)
(** * Further properties of the network helpers                        *)
(* ================================================================== *)

Lemma HasPrefix_spec (p : string) :
  forall s, HasPrefix s p = true <-> exists t, s = p ++ t.
Proof.
  induction p as [|c p IH]; intro s.
  - split; [intros _; exists s; reflexivity|intros _; destruct s; reflexivity].
  - destruct s as [|d s]; cbn [HasPrefix String.append].
    + split; [discriminate|intros [t E]; discriminate].
    + split.
      * intro H. apply andb_prop in H. destruct H as [Hc Hp].
        apply Ascii.eqb_eq in Hc. subst d.
        apply IH in Hp. destruct Hp as [t ->]. exists t. reflexivity.
      * intros [t E]. injection E as -> ->.
        rewrite Ascii.eqb_refl. cbn [andb]. apply IH. exists t. reflexivity.
Qed.

Lemma Contains_spec (sub s : string) :
  Contains s sub = true <-> occurs_in sub s.
Proof.
  unfold occurs_in. induction s as [|c s IH].
  - cbn [Contains]. rewrite orb_false_r. rewrite HasPrefix_spec. split.
    + intros [t E]. exists EmptyString, t. exact E.
    + intros (a & b & E). destruct a; [exists b; exact E|discriminate].
  - cbn [Contains]. split.
    + intro H. apply orb_prop in H. destruct H as [H|H].
      * apply HasPrefix_spec in H. destruct H as [t E].
        exists EmptyString, t. exact E.
      * apply IH in H. destruct H as (a & b & ->).
        exists (String c a), b. reflexivity.
    + intros (a & b & E). apply orb_true_iff.
      destruct a as [|d a].
      * left. apply HasPrefix_spec. exists b. exact E.
      * right. injection E as _ E. apply IH. exists a, b. exact E.
Qed.


Lemma Sprintf_status (n : Z) (body : string) :
  fmt.Sprintf "status %d: %s" [fmt.AInt n; fmt.AStr body]
  = "status " ++ fmt_d n ++ ": " ++ body.
Proof.
  cbn [fmt.Sprintf fmt.show Ascii.eqb Bool.eqb orb String.append].
  rewrite append_empty_r. reflexivity.
Qed.

(** What [uploadToMattermost] sends and returns. *)
Lemma uploadToMattermost_spec (w : World) (f : Flags)
      (name img ct uid : string) (h : list Event) :
  uploadToMattermost w (serverURL f) (token f) name img ct uid h
  = match http_NewRequest w "POST" (serverURL f ++ "/api/v4/emoji") with
    | Some e => (Some e, h)
    | None =>
      (upload_error_text (client_Do w h (upload_request f name img ct uid)),
       EvDo (upload_request f name img ct uid) :: h)
    end.
Proof.
  unfold uploadToMattermost.
  destruct (http_NewRequest w "POST" (serverURL f ++ "/api/v4/emoji"));
    [reflexivity|].
  unfold bind, Do, ret.
  change {| req_Method := "POST"; req_URL := serverURL f ++ "/api/v4/emoji";
            req_Authorization := "Bearer " ++ token f; req_multipart := true;
            req_parts := _ |}
    with (upload_request f name img ct uid).
  destruct (client_Do w h (upload_request f name img ct uid)) as [resp|err];
    [|reflexivity].
  unfold upload_error_text, StatusOK, StatusCreated.
  rewrite Sprintf_status.
  destruct (StatusCode resp =? 200), (StatusCode resp =? 201); reflexivity.
Qed.

(** What [downloadImage] returns. *)
Lemma downloadImage_spec (w : World) (url : string) (h : list Event) :
  fst (downloadImage w url h)
  = match client_Get w h url with
    | Err e => Err e
    | Ok resp =>
      if StatusCode resp =? 200 then
        match body_err (resp_Body resp) with
        | Some e => Err e
        | None => Ok (body_data (resp_Body resp), Header_ContentType resp)
        end
      else Err ("HTTP " ++ fmt_d (StatusCode resp))
    end.
Proof.
  unfold downloadImage, bind, Get, ret.
  destruct (client_Get w h url) as [resp|e]; [|reflexivity].
  unfold StatusOK. destruct (StatusCode resp =? 200); cbn [negb].
  - destruct (body_err (resp_Body resp)); reflexivity.
  - rewrite Sprintf_HTTP. reflexivity.
Qed.

(** X5: a download succeeds exactly when the request is answered with
    status 200 and the body is read to its end; its result is then the
    body as received and the Content-Type header as received, be it empty
    or not an image type.  A 200 whose body breaks off is a failure. *)
Theorem downloadImage_ok_iff (w : World) (url : string) (h : list Event)
        (data contentType : string) :
  fst (downloadImage w url h) = Ok (data, contentType)
  <-> exists resp,
      client_Get w h url = Ok resp
      /\ StatusCode resp = 200
      /\ body_err (resp_Body resp) = None
      /\ data = body_data (resp_Body resp)
      /\ contentType = Header_ContentType resp.
Proof.
  rewrite downloadImage_spec. split.
  - destruct (client_Get w h url) as [resp|e]; [|discriminate].
    destruct (Z.eqb_spec (StatusCode resp) 200) as [E|E]; [|discriminate].
    destruct (body_err (resp_Body resp)) eqn:B; [discriminate|].
    intro H. injection H as <- <-. exists resp. auto.
  - intros (resp & -> & E & B & -> & ->).
    rewrite E, B. reflexivity.
Qed.

(** A successful [getUserID] has sent its one request. *)
Lemma getUserID_ok_inv (w : World) (f : Flags) (h : list Event)
      (uid : string) :
  fst (getUserID w (serverURL f) (token f) h) = Ok uid ->
  snd (getUserID w (serverURL f) (token f) h) = EvDo (me_request f) :: h.
Proof.
  unfold getUserID.
  destruct (http_NewRequest w "GET" (serverURL f ++ "/api/v4/users/me"));
    [discriminate|].
  unfold bind, Do, ret.
  match goal with |- context [client_Do ?w ?h ?r] =>
    destruct (client_Do w h r) as [resp|e] end; [|discriminate].
  destruct (negb (StatusCode resp =? StatusOK)); [discriminate|].
  reflexivity.
Qed.

(** X6: [getUserID] yields an identifier only if the request could be
    built, the identity endpoint answered it with status 200 and the body
    decoded to that identifier; the one request it sends is a GET of
    /api/v4/users/me under the server address, bearing the token. *)
Theorem getUserID_ok_only_on_200 (w : World) (f : Flags) (h : list Event)
        (uid : string) :
  fst (getUserID w (serverURL f) (token f) h) = Ok uid ->
  snd (getUserID w (serverURL f) (token f) h) = EvDo (me_request f) :: h
  /\ exists resp,
      client_Do w h (me_request f) = Ok resp
      /\ StatusCode resp = 200
      /\ json_Decode_UserInfo w (resp_Body resp) = Ok uid.
Proof.
  unfold getUserID.
  destruct (http_NewRequest w "GET" (serverURL f ++ "/api/v4/users/me"));
    [discriminate|].
  unfold bind, Do, ret.
  change {| req_Method := "GET"; req_URL := serverURL f ++ "/api/v4/users/me";
            req_Authorization := "Bearer " ++ token f; req_multipart := false;
            req_parts := [] |}
    with (me_request f).
  destruct (client_Do w h (me_request f)) as [resp|e]; [|discriminate].
  unfold StatusOK.
  destruct (Z.eqb_spec (StatusCode resp) 200) as [E|E]; cbn [negb];
    [|discriminate].
  cbn [fst snd]. intro H. split; [reflexivity|]. exists resp. auto.
Qed.

Lemma getUserID_ok_only_on_200_witness :
  fst (getUserID (sample_world mixed_manifest ok_me ok_png ok_created)
         (serverURL sample_flags) (token sample_flags) []) = Ok "u1"
  /\ snd (getUserID (sample_world mixed_manifest ok_me ok_png ok_created)
            (serverURL sample_flags) (token sample_flags) [])
     = [EvDo (me_request sample_flags)].
Proof.
  split; [reflexivity|].
  apply (getUserID_ok_only_on_200
           (sample_world mixed_manifest ok_me ok_png ok_created)
           sample_flags [] "u1" eq_refl).
Defined.

(* ================================================================== *)
(** * Further properties of the loop                                   *)
(* ================================================================== *)

(** One iteration as a function of the answers it gets. *)
Lemma loop_body_step (lib : Libs) (w : World) (f : Flags) (uid : string)
      (name url : string) (h : list Event) :
  loop_body lib w f uid (name, url) h
  = let h1 := EvStdout (processing_line lib (name, url)) :: h in
    if HasPrefix url "alias:" then
      (AliasSkipped, EvStdout (report AliasSkipped) :: h1)
    else
      match fst (downloadImage w url h1) with
      | Err e =>
        (FetchFailed e, EvStdout (report (FetchFailed e)) :: EvGet url :: h1)
      | Ok (img, ct) =>
        let h2 := EvGet url :: h1 in
        let req := upload_request f (sanitizeEmojiName lib name) img ct uid in
        match http_NewRequest w "POST" (serverURL f ++ "/api/v4/emoji") with
        | Some e =>
          let o := outcome_of_error (Some e) in
          (o, EvSleep 200 :: EvStdout (report o) :: h2)
        | None =>
          let o := outcome_of_error (upload_error_text (client_Do w h2 req)) in
          (o, EvSleep 200 :: EvStdout (report o) :: EvDo req :: h2)
        end
      end.
Proof.
  unfold loop_body. rewrite bind_run.
  change (snd (Printf "Processing: [:%s:] -> [:%s:]... "
                 [fmt.AStr name; fmt.AStr (sanitizeEmojiName lib name)] h))
    with (EvStdout (processing_line lib (name, url)) :: h).
  cbv zeta.
  destruct (HasPrefix url "alias:"); [reflexivity|].
  rewrite bind_run, downloadImage_history.
  destruct (fst (downloadImage w url _)) as [[img ct]|e]; [|reflexivity].
  rewrite bind_run, uploadToMattermost_spec.
  destruct (http_NewRequest w "POST" (serverURL f ++ "/api/v4/emoji")) as [e|].
  - cbn [fst snd outcome_of_error]. destruct (Contains e "400"); reflexivity.
  - cbn [fst snd].
    destruct (upload_error_text (client_Do w _ _)) as [e|];
      cbn [outcome_of_error]; [|reflexivity].
    destruct (Contains e "400"); reflexivity.
Qed.

Lemma outcome_of_error_attempted (err : option string) :
  upload_attempted (outcome_of_error err) = true.
Proof.
  destruct err as [e|]; cbn; [|reflexivity]. destruct (Contains e "400");
    reflexivity.
Qed.

Section FetchedEntry.

Variables (lib : Libs) (w : World) (f : Flags) (uid name url : string).
Variable h : list Event.
Variable fetched : Response.

Let h1 := EvStdout (processing_line lib (name, url)) :: h.
Let req := upload_request f (sanitizeEmojiName lib name)
             (body_data (resp_Body fetched)) (Header_ContentType fetched) uid.

Hypothesis Hurl : HasPrefix url "alias:" = false.
Hypothesis Hget : client_Get w h1 url = Ok fetched.
Hypothesis Hstatus : StatusCode fetched = 200.
Hypothesis Hbody : body_err (resp_Body fetched) = None.
Hypothesis Hnew :
  http_NewRequest w "POST" (serverURL f ++ "/api/v4/emoji") = None.

Lemma loop_body_fetched :
  loop_body lib w f uid (name, url) h
  = let o := outcome_of_error
               (upload_error_text (client_Do w (EvGet url :: h1) req)) in
    (o, EvSleep 200 :: EvStdout (report o) :: EvDo req :: EvGet url :: h1).
Proof.
  rewrite loop_body_step. cbv zeta. fold h1.
  rewrite Hurl, downloadImage_spec, Hget, Hstatus, Hbody, Hnew.
  reflexivity.
Qed.

(** X7: what is uploaded is what was downloaded.  After a successful
    download the iteration sends one POST to /api/v4/emoji under the
    server address, bearing the token; its metadata part names the
    sanitised name and the user id, its image part carries the downloaded
    bytes unchanged under the file name made of the sanitised name and
    .gif for image/gif, .jpg for image/jpeg and .png for every other media
    type; the report line and the pause of 200 ms follow. *)
Theorem upload_carries_download :
  exists o,
    loop_body lib w f uid (name, url) h
    = (o, EvSleep 200 :: EvStdout (report o) :: EvDo req :: EvGet url :: h1)
    /\ req_URL req = serverURL f ++ "/api/v4/emoji"
    /\ req_Authorization req = "Bearer " ++ token f
    /\ map part_data (req_parts req)
       = [emojiMeta (sanitizeEmojiName lib name) uid;
          body_data (resp_Body fetched)]
    /\ map part_filename (req_parts req)
       = [None;
          Some (sanitizeEmojiName lib name
                  ++ (if String.eqb (Header_ContentType fetched) "image/gif"
                      then ".gif"
                      else if String.eqb (Header_ContentType fetched) "image/jpeg"
                           then ".jpg" else ".png"))].
Proof.
  eexists. split; [apply loop_body_fetched|]. repeat split.
Qed.

(** X8: the branch of an entry whose upload was sent is decided by the
    error text alone.  It is Uploaded exactly when the answer has status
    200 or 201; otherwise the error text is the transport error or
    status N: body, and the entry is DuplicateSkipped exactly when the
    digits 400 occur somewhere in that text, UploadFailed with the text
    otherwise.  A status 400 therefore always gives DuplicateSkipped. *)
Theorem upload_outcome_law :
  let answer := client_Do w (EvGet url :: h1) req in
  let o := fst (loop_body lib w f uid (name, url) h) in
  o = outcome_of_error (upload_error_text answer)
  /\ (o = Uploaded <->
      exists resp, answer = Ok resp
                   /\ (StatusCode resp = 200 \/ StatusCode resp = 201))
  /\ (o = DuplicateSkipped <->
      exists e, upload_error_text answer = Some e /\ occurs_in "400" e)
  /\ (forall e, o = UploadFailed e <->
                upload_error_text answer = Some e /\ ~ occurs_in "400" e)
  /\ (forall resp, answer = Ok resp -> StatusCode resp = 400 ->
                   o = DuplicateSkipped).
Proof.
  intros answer o.
  assert (E : o = outcome_of_error (upload_error_text answer)).
  { subst o. rewrite loop_body_fetched. reflexivity. }
  split; [exact E|]. rewrite E. clear E o.
  assert (C : forall e, Contains e "400" = false <-> ~ occurs_in "400" e).
  { intro e. rewrite <- Contains_spec. destruct (Contains e "400"); split;
      intro H; try reflexivity; try discriminate; congruence. }
  split; [|split; [|split]].
  - unfold upload_error_text. destruct answer as [resp|e].
    + destruct (Z.eqb_spec (StatusCode resp) 200) as [E2|E2];
        destruct (Z.eqb_spec (StatusCode resp) 201) as [E3|E3];
        cbn [orb outcome_of_error]; split; intro H; eauto;
        try (destruct (Contains _ "400"); discriminate H).
      destruct H as (r & Hr & [Hs|Hs]); injection Hr as <-; contradiction.
    + cbn [outcome_of_error]. split.
      * destruct (Contains e "400"); discriminate.
      * intros (r & Hr & _). discriminate.
  - destruct (upload_error_text answer) as [e|]; cbn [outcome_of_error].
    + destruct (Contains e "400") eqn:K; split.
      * intros _. exists e. split; [reflexivity|]. now apply Contains_spec.
      * reflexivity.
      * discriminate.
      * intros (e' & He & Ho). injection He as <-.
        apply Contains_spec in Ho. congruence.
    + split; [discriminate|]. intros (e & He & _). discriminate.
  - intro e. destruct (upload_error_text answer) as [e'|];
      cbn [outcome_of_error].
    + destruct (Contains e' "400") eqn:K; split.
      * discriminate.
      * intros [He Ho]. injection He as <-. apply C in Ho. congruence.
      * intro H. injection H as <-. split; [reflexivity|]. now apply C.
      * intros [He _]. injection He as <-. reflexivity.
    + split; [discriminate|]. intros [He _]. discriminate.
  - intros resp Hr Hs. rewrite Hr. unfold upload_error_text. rewrite Hs.
    cbn [Z.eqb Pos.eqb orb outcome_of_error]. reflexivity.
Qed.

End FetchedEntry.

Lemma upload_carries_download_witness :
  let w := sample_world mixed_manifest ok_me ok_png ok_created in
  HasPrefix "https://emoji.example.com/my.png" "alias:" = false
  /\ snd (loop_body sample_libs w sample_flags "u1"
            ("My Emoji", "https://emoji.example.com/my.png") [])
     = [EvSleep 200; EvStdout (report Uploaded);
        EvDo (upload_request sample_flags "my-emoji" "PNG" "image/png" "u1");
        EvGet "https://emoji.example.com/my.png";
        EvStdout (processing_line sample_libs
                    ("My Emoji", "https://emoji.example.com/my.png"))].
Proof.
  intro w. split; [reflexivity|].
  destruct (upload_carries_download sample_libs w sample_flags "u1" "My Emoji"
              "https://emoji.example.com/my.png" []
              {| StatusCode := 200; Header_ContentType := "image/png";
                 resp_Body := {| body_data := "PNG"; body_err := None |} |}
              eq_refl eq_refl eq_refl eq_refl eq_refl) as (o & E & _).
  assert (Eo : Uploaded = o) by exact (f_equal fst E).
  subst o. rewrite E. reflexivity.
Defined.

Lemma upload_outcome_law_witness :
  let w := sample_world mixed_manifest ok_me ok_png server_error_400 in
  HasPrefix "https://emoji.example.com/my.png" "alias:" = false
  /\ (fst (loop_body sample_libs w sample_flags "u1"
             ("My Emoji", "https://emoji.example.com/my.png") [])
      = DuplicateSkipped <->
      exists e,
        upload_error_text server_error_400 = Some e /\ occurs_in "400" e).
Proof.
  intro w. split; [reflexivity|].
  apply (upload_outcome_law sample_libs w sample_flags "u1" "My Emoji"
           "https://emoji.example.com/my.png" []
           {| StatusCode := 200; Header_ContentType := "image/png";
              resp_Body := {| body_data := "PNG"; body_err := None |} |}
           eq_refl eq_refl eq_refl eq_refl eq_refl).
Defined.

(** Every iteration is one of the four runs of [entry_run]. *)
Lemma loop_body_run (lib : Libs) (w : World) (f : Flags) (uid : string)
      (entry : string * string) (h : list Event) :
  exists evs,
    entry_run lib w f uid entry (fst (loop_body lib w f uid entry h)) evs
    /\ snd (loop_body lib w f uid entry h) = (rev evs ++ h)%list.
Proof.
  destruct entry as [name url]. rewrite loop_body_step. cbv zeta.
  destruct (HasPrefix url "alias:") eqn:Ha.
  - eexists. split; [apply er_alias; exact Ha|reflexivity].
  - destruct (fst (downloadImage w url _)) as [[img ct]|e].
    + destruct (http_NewRequest w "POST" (serverURL f ++ "/api/v4/emoji"))
        as [e|] eqn:Hn.
      * eexists. split;
          [apply er_unsent;
           [exact Ha|apply outcome_of_error_attempted|congruence]
          |reflexivity].
      * eexists. split;
          [apply (er_sent lib w f uid (name, url) _ img ct);
           [exact Ha|apply outcome_of_error_attempted|exact Hn]
          |reflexivity].
    + eexists. split; [apply er_fetch_failed; exact Ha|reflexivity].
Qed.

Lemma for_range_run (lib : Libs) (w : World) (f : Flags) (uid : string)
      (emojis : EmojiMap) :
  forall h, exists evs,
    loop_run lib w f uid emojis
             (map snd (fst (for_range (loop_body lib w f uid) emojis h))) evs
    /\ map fst (fst (for_range (loop_body lib w f uid) emojis h))
       = map fst emojis
    /\ snd (for_range (loop_body lib w f uid) emojis h) = (rev evs ++ h)%list.
Proof.
  induction emojis as [|entry rest IH]; intro h.
  - exists []. repeat split. constructor.
  - cbn [for_range]. rewrite bind_run.
    destruct (loop_body_run lib w f uid entry h) as (evs & He & Hh).
    rewrite Hh. rewrite bind_run.
    destruct (IH (rev evs ++ h)%list) as (evs' & He' & Hm & Hh').
    rewrite Hh'. exists (evs ++ evs')%list. cbn [ret fst snd map].
    split; [constructor; assumption|].
    split; [now rewrite Hm|].
    rewrite rev_app_distr, app_assoc. reflexivity.
Qed.

(** What the loop prints and sends. *)
Lemma loop_run_facts (lib : Libs) (w : World) (f : Flags) (uid : string)
      (emojis : EmojiMap) (os : list Outcome) (evs : list Event) :
  loop_run lib w f uid emojis os evs ->
  List.length os = List.length emojis
  /\ stdouts evs = flat_map (entry_lines lib) (combine emojis os)
  /\ Forall (uploads_entry_of lib f uid emojis) (requests evs)
  /\ posts evs = requests evs
  /\ (http_NewRequest w "POST" (serverURL f ++ "/api/v4/emoji") = None ->
      List.length (requests evs)
      = List.length (filter upload_attempted os)).
Proof.
  induction 1 as [|entry rest o os evs evs' He _ IH].
  - repeat split; constructor.
  - destruct IH as (I1 & I2 & I3 & I4 & I5).
    unfold stdouts, requests, posts in *.
    rewrite !flat_map_app, I2, I4.
    assert (W : Forall (uploads_entry_of lib f uid (entry :: rest))
                       (flat_map request_of evs')).
    { eapply Forall_impl; [|exact I3].
      intros r (e & img & ct & Hin & Ha & Hr).
      exists e, img, ct. split; [right; exact Hin|auto]. }
    cbn [combine flat_map List.length filter].
    destruct He as [Ha|err Ha|o' Ha Hu Hn|o' img ct Ha Hu Hn];
      cbn [flat_map stdout_of request_of post_of app entry_lines fst snd
           upload_attempted List.length upload_request req_Method];
      try rewrite Hu; cbn [String.eqb Ascii.eqb Bool.eqb app List.length];
      (split; [now rewrite I1|]);
      (split; [reflexivity|]);
      (split; [|split; [reflexivity|]]); try exact W;
      try (intro Hn'; apply I5; exact Hn').
    + intro Hn'. congruence.
    + constructor; [|exact W].
      exists entry, img, ct. split; [left; reflexivity|auto].
    + intro Hn'. f_equal. apply I5. exact Hn'.
Qed.

(* ================================================================== *)
(** * Further properties of the whole run                              *)
(* ================================================================== *)

(** The shape of every run that reaches the end of the loop. *)
Lemma main_finished_shape (lib : Libs) (w : World) (f : Flags)
      (file : string) (emojis : EmojiMap) (outs : list (string * Outcome)) :
  os_ReadFile w (jsonFile f) = Ok file ->
  json_Unmarshal w file = Ok emojis ->
  fst (main lib w f []) = Finished outs ->
  exists uid evs,
    fst (getUserID w (serverURL f) (token f) [EvReadFile (jsonFile f)]) = Ok uid
    /\ loop_run lib w f uid emojis (map snd outs) evs
    /\ map fst outs = map fst emojis
    /\ trace (main lib w f)
       = ([EvReadFile (jsonFile f); EvDo (me_request f);
           EvStdout (banner emojis)] ++ evs)%list.
Proof.
  intros Hr Hj Hfin.
  pose proof (main_finished_flags lib w f outs Hfin) as Hf.
  unfold trace. revert Hfin.
  rewrite (main_run lib w f file emojis Hf Hr Hj). cbv zeta.
  destruct (fst (getUserID w (serverURL f) (token f) [EvReadFile (jsonFile f)]))
    as [uid|err] eqn:Hid; [|discriminate].
  pose proof (getUserID_ok_inv w f _ uid Hid) as Hs.
  rewrite Hs. cbn [fst snd]. intro Hfin. injection Hfin as <-.
  destruct (for_range_run lib w f uid emojis
              [EvStdout (banner emojis); EvDo (me_request f);
               EvReadFile (jsonFile f)]) as (evs & He & Hm & Hh).
  exists uid, evs. split; [reflexivity|]. split; [exact He|].
  split; [exact Hm|].
  rewrite Hh, rev_app_distr, rev_involutive. reflexivity.
Qed.



(** X10: the console output of a run that reaches the end of the loop is
    the banner with the number of manifest entries followed, entry by
    entry in the order of the iteration, by the line that names the entry
    and its sanitised name and the line that reports its outcome; nothing
    else is printed. *)
Theorem run_console_output (lib : Libs) (w : World) (f : Flags)
        (file : string) (emojis : EmojiMap) (outs : list (string * Outcome)) :
  os_ReadFile w (jsonFile f) = Ok file ->
  json_Unmarshal w file = Ok emojis ->
  fst (main lib w f []) = Finished outs ->
  stdouts (trace (main lib w f))
  = banner emojis :: flat_map (entry_lines lib) (combine emojis (map snd outs))
  /\ List.length outs = List.length emojis.
Proof.
  intros Hr Hj Hfin.
  destruct (main_finished_shape lib w f file emojis outs Hr Hj Hfin)
    as (uid & evs & _ & He & _ & Ht).
  destruct (loop_run_facts lib w f uid emojis _ evs He) as (L & S & _).
  rewrite Ht. unfold stdouts in *. rewrite flat_map_app, S.
  rewrite length_map in L. auto.
Qed.

Lemma run_console_output_witness :
  let w := sample_world mixed_manifest ok_me not_found ok_created in
  fst (main sample_libs w sample_flags [])
  = Finished [("shipit", AliasSkipped); ("My Emoji", FetchFailed "HTTP 404");
              ("жду", FetchFailed "HTTP 404")]
  /\ stdouts (trace (main sample_libs w sample_flags))
     = [banner mixed_manifest;
        processing_line sample_libs ("shipit", "alias:squirrel");
        report AliasSkipped;
        processing_line sample_libs
          ("My Emoji", "https://emoji.example.com/my.png");
        report (FetchFailed "HTTP 404");
        processing_line sample_libs
          ("жду", "https://emoji.example.com/zhdu.png");
        report (FetchFailed "HTTP 404")].
Proof.
  intro w.
  assert (H : fst (main sample_libs w sample_flags [])
              = Finished [("shipit", AliasSkipped);
                          ("My Emoji", FetchFailed "HTTP 404");
                          ("жду", FetchFailed "HTTP 404")])
    by (vm_compute; reflexivity).
  split; [exact H|].
  rewrite (proj1 (run_console_output sample_libs w sample_flags "{}"
                    mixed_manifest _ eq_refl eq_refl H)).
  reflexivity.
Defined.

(** X11: when the upload request can be built, a run that reaches the end
    of the loop sends exactly one POST for every entry whose download
    succeeded, and pauses 200 ms exactly that often. *)
Theorem run_one_post_per_fetched_entry (lib : Libs) (w : World) (f : Flags)
        (file : string) (emojis : EmojiMap) (outs : list (string * Outcome)) :
  os_ReadFile w (jsonFile f) = Ok file ->
  json_Unmarshal w file = Ok emojis ->
  fst (main lib w f []) = Finished outs ->
  http_NewRequest w "POST" (serverURL f ++ "/api/v4/emoji") = None ->
  List.length (posts (trace (main lib w f)))
  = count_outcomes upload_attempted outs
  /\ (count_outcomes upload_attempted outs
      = List.length (filter not_alias emojis)
        - count_outcomes fetch_failed outs)%nat
  /\ sleeps (trace (main lib w f))
     = repeat 200 (count_outcomes upload_attempted outs).
Proof.
  intros Hr Hj Hfin Hn.
  destruct (main_finished_shape lib w f file emojis outs Hr Hj Hfin)
    as (uid & evs & Hid & He & _ & Ht).
  destruct (loop_run_facts lib w f uid emojis _ evs He)
    as (_ & _ & _ & P & N).
  pose proof (main_finished_flags lib w f outs Hfin) as Hf.
  destruct (main_trace_finished lib w f file emojis uid Hf Hr Hj Hid)
    as (outs' & evs0 & sent & Hm & He0 & Hq & Ht0).
  rewrite Hfin in Hm. injection Hm as <-.
  destruct (loop_events_facts lib emojis outs evs0 He0)
    as (_ & _ & _ & L4 & _ & L6).
  destruct (quiet_trace_prefix (jsonFile f) sent (banner emojis) evs0 Hq
              (banner_not_processing emojis)) as (_ & _ & Q3 & _).
  assert (C : List.length (filter upload_attempted (map snd outs))
              = count_outcomes upload_attempted outs).
  { unfold count_outcomes. clear. induction outs as [|[n o] l IH];
      [reflexivity|]. cbn. destruct (upload_attempted o); cbn; now rewrite IH. }
  split; [|split].
  - rewrite Ht. unfold posts in *. rewrite flat_map_app.
    cbn [flat_map post_of me_request req_Method String.eqb Ascii.eqb Bool.eqb
         app].
    rewrite P, (N Hn). exact C.
  - lia.
  - rewrite Ht0, Q3. exact L4.
Qed.

Lemma run_one_post_per_fetched_entry_witness :
  let w := sample_world mixed_manifest ok_me ok_png server_error_400 in
  fst (main sample_libs w sample_flags [])
  = Finished [("shipit", AliasSkipped); ("My Emoji", DuplicateSkipped);
              ("жду", DuplicateSkipped)]
  /\ List.length (posts (trace (main sample_libs w sample_flags))) = 2%nat
  /\ sleeps (trace (main sample_libs w sample_flags)) = [200; 200].
Proof.
  intro w.
  assert (H : fst (main sample_libs w sample_flags [])
              = Finished [("shipit", AliasSkipped);
                          ("My Emoji", DuplicateSkipped);
                          ("жду", DuplicateSkipped)])
    by (vm_compute; reflexivity).
  split; [exact H|].
  destruct (run_one_post_per_fetched_entry sample_libs w sample_flags "{}"
              mixed_manifest _ eq_refl eq_refl H eq_refl) as (A & _ & B).
  split; [exact A|exact B].
Defined.

(** X12: a run with one of the three flags empty names the first missing
    one (server, then token, then file) on standard error, prints the
    usage text and exits with status 1; no file is read and nothing goes
    over the network. *)
Theorem missing_flag_exits (lib : Libs) (w : World) (f : Flags) :
  serverURL f = EmptyString \/ token f = EmptyString
  \/ jsonFile f = EmptyString ->
  let flag :=
    if String.eqb (serverURL f) EmptyString then "-server/-s"
    else if String.eqb (token f) EmptyString then "-token/-t"
    else "-file/-f" in
  fst (main lib w f []) = MissingFlag
  /\ trace (main lib w f)
     = [EvStderr ("❌ Error: " ++ flag ++ " flag is required" ++ nl);
        EvUsage; EvExit 1].
Proof.
  intro H. unfold trace, main.
  destruct (String.eqb_spec (serverURL f) EmptyString) as [E1|E1];
    [split; reflexivity|].
  destruct (String.eqb_spec (token f) EmptyString) as [E2|E2];
    [split; reflexivity|].
  destruct (String.eqb_spec (jsonFile f) EmptyString) as [E3|E3];
    [split; reflexivity|].
  exfalso. tauto.
Qed.

Lemma missing_flag_exits_witness :
  let f := {| serverURL := "https://mattermost.example.com";
              token := EmptyString; jsonFile := EmptyString |} in
  trace (main sample_libs
           (sample_world mixed_manifest ok_me ok_png ok_created) f)
  = [EvStderr ("❌ Error: -token/-t flag is required" ++ nl);
     EvUsage; EvExit 1].
Proof.
  intro f.
  apply (missing_flag_exits sample_libs
           (sample_world mixed_manifest ok_me ok_png ok_created) f).
  right. left. reflexivity.
Defined.

(** X13: with the flags set, a manifest file that cannot be read, or whose
    content is not the expected JSON, ends the run after one line that
    quotes the error; the file was read once and nothing went over the
    network. *)
Theorem manifest_failure_stops_run (lib : Libs) (w : World) (f : Flags) :
  flags_set f ->
  match os_ReadFile w (jsonFile f) with
  | Err err =>
    fst (main lib w f []) = ReadFailed
    /\ trace (main lib w f)
       = [EvReadFile (jsonFile f);
          EvStdout ("❌ Error reading file: " ++ err ++ nl)]
  | Ok file =>
    match json_Unmarshal w file with
    | Err err =>
      fst (main lib w f []) = ParseFailed
      /\ trace (main lib w f)
         = [EvReadFile (jsonFile f);
            EvStdout ("❌ Error parsing JSON: " ++ err ++ nl)]
    | Ok _ =>
      fst (main lib w f []) <> ReadFailed
      /\ fst (main lib w f []) <> ParseFailed
    end
  end.
Proof.
  intro Hf. pose proof (flags_set_eqb f Hf) as (A & B & C).
  destruct (os_ReadFile w (jsonFile f)) as [file|err] eqn:Hr.
  - destruct (json_Unmarshal w file) as [emojis|err] eqn:Hj.
    + rewrite (main_run lib w f file emojis Hf Hr Hj). cbv zeta.
      destruct (fst (getUserID _ _ _ _)); split; discriminate.
    + assert (E : main lib w f []
                  = (ParseFailed,
                     [EvStdout ("❌ Error parsing JSON: " ++ err ++ nl);
                      EvReadFile (jsonFile f)])).
      { unfold main. rewrite A, B, C, bind_run.
        unfold ReadFile. cbn [fst snd]. rewrite Hr, Hj. reflexivity. }
      unfold trace. rewrite E. split; reflexivity.
  - assert (E : main lib w f []
                = (ReadFailed,
                   [EvStdout ("❌ Error reading file: " ++ err ++ nl);
                    EvReadFile (jsonFile f)])).
    { unfold main. rewrite A, B, C, bind_run.
      unfold ReadFile. cbn [fst snd]. rewrite Hr. reflexivity. }
    unfold trace. rewrite E. split; reflexivity.
Qed.

Lemma manifest_failure_stops_run_witness :
  let w := {| os_ReadFile := fun _ => Err "open emoji.json: no such file";
              json_Unmarshal := fun _ => Ok mixed_manifest;
              http_NewRequest := fun _ _ => None;
              client_Get := fun _ _ => ok_png;
              client_Do := fun _ _ => ok_me;
              json_Decode_UserInfo := fun _ => Ok "u1" |} in
  flags_set sample_flags
  /\ trace (main sample_libs w sample_flags)
     = [EvReadFile "emoji.json";
        EvStdout ("❌ Error reading file: open emoji.json: no such file" ++ nl)].
Proof.
  intro w. split; [exact sample_flags_set|].
  apply (manifest_failure_stops_run sample_libs w sample_flags
           sample_flags_set).
Defined.

Lemma downloadImage_ok_iff_witness :
  fst (downloadImage (sample_world mixed_manifest ok_me ok_png ok_created)
         "https://emoji.example.com/my.png" [])
  = Ok ("PNG", "image/png").
Proof.
  apply (downloadImage_ok_iff
           (sample_world mixed_manifest ok_me ok_png ok_created)
           "https://emoji.example.com/my.png" [] "PNG" "image/png").
  eexists. repeat split.
Defined.
